(** * ATM account ledger: a shallow embedding of [account.py]

    The development follows the layout of the Python module:
    - [Py]        the builtins the module relies on ([str], [int],
                  [str.split], [str.strip], exceptions);
    - [Datetime]  the part of the [datetime] library the module calls
                  ([timedelta], [strftime], [strptime], [isoformat],
                  [datetime + timedelta]);
    - [TimeZone], [TransactionID], [Transaction_Code], [Account]
                  the classes of [account.py];
    - [Run]       sequences of calls against the class-wide state.

    Conventions.  A Python [str] is a [string]; a character is a code
    point below 256.  Numbers that pass [isinstance(_, Real)] carry
    their exact rational value and arithmetic on them is exact (as it is
    for [int] and [fractions.Fraction]); the rounding of binary floats
    and the IEEE special values are outside this model.  Exceptions are
    values of [exn]; their message text is not modelled. *)

From Stdlib Require Import ZArith QArith Qabs Qpower Lqa String Ascii List Bool Lia.
From Stdlib Require Import DecimalString DecimalPos DecimalZ DecimalFacts.
From Stdlib Require Import Sorted.
Import ListNotations.

Local Open Scope string_scope.
Local Open Scope Z_scope.

(* ================================================================= *)
(** ** Exceptions, results and the state-and-exception monad *)

Inductive exn : Type :=
| ValueError
| KeyError
| IndexError
| OverflowError
| NameError.

Inductive result (A : Type) : Type :=
| Ok (a : A)
| Raise (e : exn).
Arguments Ok {A} a.
Arguments Raise {A} e.

Definition is_ok {A} (r : result A) : bool :=
  match r with Ok _ => true | Raise _ => false end.

(** A computation over a mutable state [S]: the state that is current
    when an exception is raised is the state the caller is left with. *)
Definition M (S A : Type) : Type := S -> result A * S.

Definition ret {S A} (a : A) : M S A := fun s => (Ok a, s).
Definition raise {S A} (e : exn) : M S A := fun s => (Raise e, s).
Definition bind {S A B} (m : M S A) (k : A -> M S B) : M S B :=
  fun s => match m s with
           | (Ok a, s') => k a s'
           | (Raise e, s') => (Raise e, s')
           end.
Definition get {S} : M S S := fun s => (Ok s, s).
Definition put {S} (s : S) : M S unit := fun _ => (Ok tt, s).
Definition lift {S A} (r : result A) : M S A := fun s => (r, s).

(** Sequencing of calls that only return or raise. *)
Notation "'let?' x ':=' r 'in' k" :=
  (match r with Ok x => k | Raise e => Raise e end)
  (at level 10, x pattern, r at level 100, k at level 200).

Declare Scope monad_scope.
Delimit Scope monad_scope with monad.
Notation "x <- m ;; k" := (bind m (fun x => k))
  (at level 61, m at next level, right associativity) : monad_scope.
Notation "m ;;; k" := (bind m (fun _ => k))
  (at level 61, right associativity) : monad_scope.

(* ================================================================= *)
(** ** Python builtins *)

Module Py.

(** Dynamically typed arguments: what a caller can pass where the code
    tests [isinstance(_, Integral)] or [isinstance(_, Real)]. *)
Inductive value : Type :=
| VNone
| VInt (z : Z)          (* int: Integral and Real *)
| VReal (q : Q)         (* float, Fraction: Real, not Integral *)
| VStr (s : string).    (* str: neither *)

Definition as_Integral (v : value) : option Z :=
  match v with VInt z => Some z | _ => None end.

Definition as_Real (v : value) : option Q :=
  match v with
  | VInt z => Some (inject_Z z)
  | VReal q => Some q
  | _ => None
  end.

Definition Qlt_bool (x y : Q) : bool := negb (Qle_bool y x).

(** [str.isspace] on code points below 256. *)
Definition isspace (c : ascii) : bool :=
  let n := nat_of_ascii c in
  ((9 <=? n) && (n <=? 13) || (28 <=? n) && (n <=? 32)
   || (n =? 133) || (n =? 160))%nat.

Fixpoint lstrip (s : string) : string :=
  match s with
  | EmptyString => EmptyString
  | String c s' => if isspace c then lstrip s' else s
  end.

Fixpoint rstrip (s : string) : string :=
  match s with
  | EmptyString => EmptyString
  | String c s' =>
      match rstrip s' with
      | EmptyString => if isspace c then EmptyString else String c EmptyString
      | r => String c r
      end
  end.

Definition strip (s : string) : string := rstrip (lstrip s).

(** [s.split(sep)] for a one-character separator. *)
Fixpoint split (sep : ascii) (s : string) : list string :=
  match s with
  | EmptyString => [EmptyString]
  | String c s' =>
      if Ascii.eqb c sep then EmptyString :: split sep s'
      else match split sep s' with
           | p :: ps => String c p :: ps
           | [] => [String c EmptyString]
           end
  end.

(** [str(n)] for an [int]. *)
Definition str (z : Z) : string := NilZero.string_of_int (Z.to_int z).

(** [int(s)] on an optionally signed run of decimal digits, surrounding
    white space ignored; [None] stands for [ValueError]. *)
Definition int (s : string) : option Z :=
  option_map Z.of_int (NilZero.int_of_string (strip s)).


(** [c in s] *)
Fixpoint contains (c : ascii) (s : string) : bool :=
  match s with
  | EmptyString => false
  | String a s' => Ascii.eqb a c || contains c s'
  end.

(** [all(p(c) for c in s)] *)
Fixpoint all_chars (p : ascii -> bool) (s : string) : bool :=
  match s with
  | EmptyString => true
  | String a s' => p a && all_chars p s'
  end.

(** [str.isdecimal] on a code point below 256: one of 0..9. *)
Definition isdecimal (c : ascii) : bool :=
  let n := nat_of_ascii c in ((48 <=? n) && (n <=? 57))%nat.

End Py.

(* ================================================================= *)
(** ** The [datetime] library, as far as [account.py] calls it

    Transcribed from CPython 3.11 ([Lib/datetime.py], [Lib/_strptime.py]).
    Every duration in [account.py] is a whole number of minutes, so a
    [timedelta] is kept as its total number of seconds. *)

Module Datetime.

Definition MINYEAR : Z := 1.
Definition MAXYEAR : Z := 9999.
Definition _MAXORDINAL : Z := 3652059.

Record datetime : Type := mkdatetime {
  year : Z; month : Z; day : Z;
  hour : Z; minute : Z; second : Z
}.

Definition _is_leap (y : Z) : bool :=
  (y mod 4 =? 0) && (negb (y mod 100 =? 0) || (y mod 400 =? 0)).

Definition _DAYS_IN_MONTH (m : Z) : Z :=
  match m with
  | 1 => 31 | 2 => 28 | 3 => 31 | 4 => 30 | 5 => 31 | 6 => 30
  | 7 => 31 | 8 => 31 | 9 => 30 | 10 => 31 | 11 => 30 | 12 => 31
  | _ => -1
  end.

Definition _DAYS_BEFORE_MONTH (m : Z) : Z :=
  match m with
  | 1 => 0 | 2 => 31 | 3 => 59 | 4 => 90 | 5 => 120 | 6 => 151
  | 7 => 181 | 8 => 212 | 9 => 243 | 10 => 273 | 11 => 304 | 12 => 334
  | _ => -1
  end.

Definition _days_before_year (y : Z) : Z :=
  let y := y - 1 in y * 365 + y / 4 - y / 100 + y / 400.

Definition _days_in_month (y m : Z) : Z :=
  if (m =? 2) && _is_leap y then 29 else _DAYS_IN_MONTH m.

Definition _days_before_month (y m : Z) : Z :=
  _DAYS_BEFORE_MONTH m + (if (2 <? m) && _is_leap y then 1 else 0).

Definition _ymd2ord (y m d : Z) : Z :=
  _days_before_year y + _days_before_month y m + d.

Definition _DI400Y : Z := 146097.
Definition _DI100Y : Z := 36524.
Definition _DI4Y : Z := 1461.

Definition _ord2ymd (n : Z) : Z * Z * Z :=
  let n := n - 1 in
  let n400 := n / _DI400Y in let n := n mod _DI400Y in
  let y := n400 * 400 + 1 in
  let n100 := n / _DI100Y in let n := n mod _DI100Y in
  let n4 := n / _DI4Y in let n := n mod _DI4Y in
  let n1 := n / 365 in let n := n mod 365 in
  let y := y + n100 * 100 + n4 * 4 + n1 in
  if (n1 =? 4) || (n100 =? 4) then (y - 1, 12, 31)
  else
    let leapyear := (n1 =? 3) && (negb (n4 =? 24) || (n100 =? 3)) in
    let m := Z.shiftr (n + 50) 5 in
    let preceding :=
      _DAYS_BEFORE_MONTH m + (if (2 <? m) && leapyear then 1 else 0) in
    if n <? preceding then
      let m := m - 1 in
      let preceding :=
        preceding
        - (_DAYS_IN_MONTH m + (if (m =? 2) && leapyear then 1 else 0)) in
      (y, m, n - preceding + 1)
    else (y, m, n - preceding + 1).

(** The range checks of the [datetime] constructor. *)
Definition fields_ok (y m d H Mi Se : Z) : bool :=
  (MINYEAR <=? y) && (y <=? MAXYEAR)
  && (1 <=? m) && (m <=? 12)
  && (1 <=? d) && (d <=? _days_in_month y m)
  && (0 <=? H) && (H <=? 23)
  && (0 <=? Mi) && (Mi <=? 59)
  && (0 <=? Se) && (Se <=? 59).

Definition valid (dt : datetime) : bool :=
  fields_ok (year dt) (month dt) (day dt) (hour dt) (minute dt) (second dt).

Definition new (y m d H Mi Se : Z) : result datetime :=
  if fields_ok y m d H Mi Se then Ok (mkdatetime y m d H Mi Se)
  else Raise ValueError.

Definition toordinal (dt : datetime) : Z :=
  _ymd2ord (year dt) (month dt) (day dt).

(** *** [timedelta] *)

Definition timedelta : Type := Z.   (* total seconds *)

(** [timedelta(hours=h, minutes=m)]: the day count of a [timedelta] has
    magnitude at most 999999999. *)
Definition timedelta_new (hours minutes : Z) : result timedelta :=
  let s := hours * 3600 + minutes * 60 in
  if Z.abs (s / 86400) >? 999999999 then Raise OverflowError else Ok s.

(** [dt + delta]. *)
Definition add (dt : datetime) (delta : timedelta) : result datetime :=
  let total :=
    toordinal dt * 86400
    + (hour dt * 3600 + minute dt * 60 + second dt) + delta in
  let days := total / 86400 in
  let secs := total mod 86400 in
  let H := secs / 3600 in
  let rem := secs mod 3600 in
  if (0 <? days) && (days <=? _MAXORDINAL) then
    let '(y, m, d) := _ord2ymd days in
    Ok (mkdatetime y m d H (rem / 60) (rem mod 60))
  else Raise OverflowError.

(** *** Formatting *)

Fixpoint zeros (n : nat) : string :=
  match n with
  | O => EmptyString
  | S n' => String "0" (zeros n')
  end.

(** [z] in decimal, zero-padded on the left to [width] characters. *)
Definition pad (width : nat) (z : Z) : string :=
  let s := Py.str z in
  zeros (width - String.length s) ++ s.

(** [dt.strftime('%Y%m%d%H%M%S')]; the year is written with four digits,
    as the C library does for the years from 1000 on. *)
Definition strftime (dt : datetime) : string :=
  pad 4 (year dt) ++ pad 2 (month dt) ++ pad 2 (day dt)
  ++ pad 2 (hour dt) ++ pad 2 (minute dt) ++ pad 2 (second dt).

(** [dt.isoformat()] (no microseconds, no tzinfo) *)
Definition isoformat (dt : datetime) : string :=
  pad 4 (year dt) ++ "-" ++ pad 2 (month dt) ++ "-" ++ pad 2 (day dt)
  ++ "T" ++ pad 2 (hour dt) ++ ":" ++ pad 2 (minute dt)
  ++ ":" ++ pad 2 (second dt).

(** *** Parsing: [_strptime]

    [_strptime] turns the format into a regular expression, one named
    group per directive, and runs [re.match] on it: the groups are tried
    left to right, the alternatives of a group in the order written,
    backtracking into earlier groups when a later one fails. *)

Inductive cclass : Type :=
| Digit                       (* \d *)
| Range (lo hi : ascii)       (* [lo-hi] *)
| Lit (c : ascii).

Definition cmatch (k : cclass) (c : ascii) : bool :=
  let n := nat_of_ascii c in
  match k with
  | Digit => (48 <=? n)%nat && (n <=? 57)%nat
  | Range lo hi => (nat_of_ascii lo <=? n)%nat && (n <=? nat_of_ascii hi)%nat
  | Lit a => Ascii.eqb a c
  end.

Definition alt : Type := list cclass.
Definition group : Type := list alt.

(** Match one alternative at the head of [s]: the text matched and the
    rest. *)
Fixpoint match_alt (a : alt) (s : string) : option (string * string) :=
  match a with
  | [] => Some (EmptyString, s)
  | k :: a' =>
      match s with
      | EmptyString => None
      | String c s' =>
          if cmatch k c then
            match match_alt a' s' with
            | Some (m, rest) => Some (String c m, rest)
            | None => None
            end
          else None
      end
  end.

Fixpoint first_some {A B} (f : A -> option B) (l : list A) : option B :=
  match l with
  | [] => None
  | a :: l' => match f a with Some b => Some b | None => first_some f l' end
  end.

Fixpoint match_groups (gs : list group) (s : string)
  : option (list string * string) :=
  match gs with
  | [] => Some ([], s)
  | g :: gs' =>
      first_some
        (fun a =>
           match match_alt a s with
           | Some (m, rest) =>
               match match_groups gs' rest with
               | Some (ms, r) => Some (m :: ms, r)
               | None => None
               end
           | None => None
           end) g
  end.

Definition re_Y : group := [[Digit; Digit; Digit; Digit]].
Definition re_m : group :=
  [[Lit "1"; Range "0" "2"]; [Lit "0"; Range "1" "9"]; [Range "1" "9"]].
Definition re_d : group :=
  [[Lit "3"; Range "0" "1"]; [Range "1" "2"; Digit]; [Lit "0"; Range "1" "9"];
   [Range "1" "9"]; [Lit " "; Range "1" "9"]].
Definition re_H : group :=
  [[Lit "2"; Range "0" "3"]; [Range "0" "1"; Digit]; [Digit]].
Definition re_M : group := [[Range "0" "5"; Digit]; [Digit]].
Definition re_S : group :=
  [[Lit "6"; Range "0" "1"]; [Range "0" "5"; Digit]; [Digit]].

(** The regular expression of ['%Y%m%d%H%M%S']. *)
Definition format_regex : list group := [re_Y; re_m; re_d; re_H; re_M; re_S].

(** [datetime.strptime(s, '%Y%m%d%H%M%S')] *)
Definition strptime (s : string) : result datetime :=
  match match_groups format_regex s with
  | Some ([gY; gm; gd; gH; gM; gS], EmptyString) =>
      match Py.int gY, Py.int gm, Py.int gd, Py.int gH, Py.int gM, Py.int gS with
      | Some y, Some m, Some d, Some H, Some Mi, Some Se => new y m d H Mi Se
      | _, _, _, _, _, _ => Raise ValueError
      end
  | Some (_, _) => Raise ValueError     (* unconverted data remains *)
  | None => Raise ValueError            (* does not match format *)
  end.

End Datetime.


(* ================================================================= *)
(** ** [class TimeZone] *)

Module TimeZone.

Record t : Type := mk {
  _name : string;
  _offset_hours : Z;
  _offset_minutes : Z;
  _offset : Datetime.timedelta
}.

(** [TimeZone(name, offset_hours, offset_minutes)]; [name] is [None] or
    a string. *)
Definition __init__ (name : option string) (offset_hours offset_minutes : Py.value)
  : result t :=
  match name with
  | None => Raise ValueError
  | Some name =>
      if (String.length (Py.strip name) =? 0)%nat then Raise ValueError
      else
        match Py.as_Integral offset_hours with
        | None => Raise ValueError
        | Some h =>
            match Py.as_Integral offset_minutes with
            | None => Raise ValueError
            | Some m =>
                if (m <? -59) || (m >? 59) then Raise ValueError
                else
                  let? offset := Datetime.timedelta_new h m in
                  let? lo := Datetime.timedelta_new (-12) 0 in
                  let? hi := Datetime.timedelta_new 14 0 in
                  if (offset <? lo) || (offset >? hi) then Raise ValueError
                  else Ok (mk (Py.strip name) h m offset)
            end
        end
  end.

Definition offset (self : t) : Datetime.timedelta := _offset self.
Definition name (self : t) : string := _name self.

Definition __eq__ (self other : t) : bool :=
  String.eqb (name self) (name other)
  && (_offset_hours self =? _offset_hours other)
  && (_offset_minutes self =? _offset_minutes other).

End TimeZone.

(** An argument that is expected to be a [TimeZone]. *)
Inductive tzarg : Type :=
| TzNone
| TzObj (tz : TimeZone.t)
| TzOther (v : Py.value).

(* ================================================================= *)
(** ** [class TransactionID] and [itertools.count] *)

Module TransactionID.

Record t : Type := mk { _start_id : Z }.

Definition __init__ (start_id : Z) : t := mk start_id.

Definition __next__ : M t Z :=
  fun self =>
    let self := mk (_start_id self + 1) in
    (Ok (_start_id self), self).

End TransactionID.

Module Itertools.

(** [itertools.count(start)]: the state is the value the next call of
    [next] returns. *)
Definition count : Type := Z.
Definition count_new (start : Z) : count := start.
Definition next : M count Z := fun c => (Ok c, c + 1).

End Itertools.

(* ================================================================= *)
(** ** [class Transaction_Code(Enum)] *)

Module Transaction_Code.

Inductive t : Type := DEPOSIT | WITHDRAW | INTEREST | REJECTED.

(** The first three members are written with a trailing comma: their
    value is a one-element tuple, the value of [REJECTED] is a string. *)
Inductive member_value : Type :=
| Tuple1 (s : string)
| Str (s : string).

Definition value (k : t) : member_value :=
  match k with
  | DEPOSIT => Tuple1 "D"
  | WITHDRAW => Tuple1 "W"
  | INTEREST => Tuple1 "I"
  | REJECTED => Str "X"
  end.

(** [v[0]] *)
Definition item0 (v : member_value) : result string :=
  match v with
  | Tuple1 s => Ok s
  | Str (String c _) => Ok (String c EmptyString)
  | Str EmptyString => Raise IndexError
  end.

(** [Transaction_Code[name]] *)
Definition getitem (name : string) : result t :=
  if String.eqb name "DEPOSIT" then Ok DEPOSIT
  else if String.eqb name "WITHDRAW" then Ok WITHDRAW
  else if String.eqb name "INTEREST" then Ok INTEREST
  else if String.eqb name "REJECTED" then Ok REJECTED
  else Raise KeyError.

Definition name (k : t) : string :=
  match k with
  | DEPOSIT => "DEPOSIT"
  | WITHDRAW => "WITHDRAW"
  | INTEREST => "INTEREST"
  | REJECTED => "REJECTED"
  end.

End Transaction_Code.

(** [namedtuple('Confirmation', ...)] *)
Record Confirmation : Type := mkConfirmation {
  account_number : string;
  transaction_code : string;
  transaction_id : string;
  time_utc : string;
  time : string
}.

(* ================================================================= *)
(** ** [class Account] *)

Module Account.

(** The class attributes, shared by every account. *)
Record klass : Type := mkklass {
  _interest_rate : Q;
  transaction_counter : Itertools.count
}.

Definition klass_init : klass := mkklass (5 # 1) (Itertools.count_new 100).

(** The instance attributes. *)
Record t : Type := mk {
  _account_number : Z;
  _first_name : string;
  _last_name : string;
  _balance : Q;
  _timezone : TimeZone.t
}.

(** What a method call can read and write: the class and the receiver. *)
Record state : Type := mkstate { cls : klass; self : t }.

Definition on_cls {A} (m : M klass A) : M state A :=
  fun st => let '(r, c) := m (cls st) in (r, mkstate c (self st)).

Definition set_balance (b : Q) : M state unit :=
  fun st =>
    let a := self st in
    (Ok tt,
     mkstate (cls st)
       (mk (_account_number a) (_first_name a) (_last_name a) b (_timezone a))).

(** The float literal [0.01]: the double nearest to 1/100. *)
Definition float_0_01 : Q := 5764607523034235 # 576460752303423488.

Definition validate_real_number
    (value : Py.value) (field_title : string) (min_value : option Q)
  : result Q :=
  match Py.as_Real value with
  | None => Raise ValueError
  | Some v =>
      match min_value with
      | Some lo => if Py.Qlt_bool v lo then Raise ValueError else Ok v
      | None => Ok v
      end
  end.

(** The test of [validate_and_set_name]; the caller stores the value. *)
Definition validate_and_set_name (value : option string) (field_title : string)
  : result string :=
  match value with
  | None => Raise ValueError
  | Some v =>
      if (String.length (Py.strip v) =? 0)%nat then Raise ValueError else Ok v
  end.

(** The [timezone] setter. *)
Definition set_timezone (value : tzarg) : result TimeZone.t :=
  match value with
  | TzObj tz => Ok tz
  | _ => Raise ValueError
  end.

Definition __init__
    (account_number : Py.value) (first_name last_name : option string)
    (initial_balance : Py.value) (timezone : tzarg)
  : result t :=
  match Py.as_Integral account_number with
  | None => Raise ValueError
  | Some n =>
      if n <? 0 then Raise ValueError
      else
        let? fn := validate_and_set_name first_name "first_name" in
        let? ln := validate_and_set_name last_name "last_name" in
        let? b := validate_real_number initial_balance "balance" (Some float_0_01) in
        let? timezone :=
          match timezone with
          | TzNone =>
              let? utc := TimeZone.__init__ (Some "UTC") (Py.VInt 0) (Py.VInt 0) in
              Ok (TzObj utc)
          | _ => Ok timezone
          end in
        let? tz := set_timezone timezone in
        Ok (mk n fn ln b tz)
  end.

Definition balance (a : t) : Q := _balance a.
Definition account_number (a : t) : Z := _account_number a.

Definition next_transaction_counter : M state Z :=
  on_cls (fun c =>
            let '(r, n) := Itertools.next (transaction_counter c) in
            (r, mkklass (_interest_rate c) n)).

Definition make_transaction_codes : M state Z :=
  (new_trans_id <- next_transaction_counter ;; ret new_trans_id)%monad.

Definition get_interest_rate : M klass Q :=
  fun c => (Ok (_interest_rate c), c).

Definition set_interest_rate (value : Py.value) : M klass unit :=
  match Py.as_Real value with
  | None => raise ValueError
  | Some v =>
      if Py.Qlt_bool v 0 then raise ValueError
      else fun c => (Ok tt, mkklass v (transaction_counter c))
  end.

(** [now] is what [datetime.utcnow()] returns during the call. *)
Definition generation_confirmation_code
    (now : Datetime.datetime) (transaction_code : string) : M state string :=
  (let dt_str := Datetime.strftime now in
   k <- lift (Transaction_Code.getitem transaction_code) ;;
   t_code <- lift (Transaction_Code.item0 (Transaction_Code.value k)) ;;
   st <- get ;;
   id <- next_transaction_counter ;;
   ret (t_code ++ "-" ++ Py.str (account_number (self st)) ++ "-" ++ dt_str
        ++ "-" ++ Py.str id)%string)%monad.

Definition parse_confirmation_code
    (confirmation_code : string) (preferred_time_zone : tzarg)
  : result Confirmation :=
  match Py.split "-" confirmation_code with
  | [transaction_code; account_number; raw_dt_utc; transaction_id] =>
      let? dt_utc :=
        match Datetime.strptime raw_dt_utc with
        | Raise ValueError => Raise ValueError
        | r => r
        end in
      let? preferred_time_zone :=
        match preferred_time_zone with
        | TzNone =>
            let? utc := TimeZone.__init__ (Some "UTC") (Py.VInt 0) (Py.VInt 0) in
            Ok (TzObj utc)
        | _ => Ok preferred_time_zone
        end in
      match preferred_time_zone with
      | TzObj tz =>
          let? dt_preferred := Datetime.add dt_utc (TimeZone.offset tz) in
          let dt_preferred_str :=
            (Datetime.strftime dt_preferred ++ " (" ++ TimeZone.name tz ++ ")")%string in
          Ok (mkConfirmation account_number transaction_code transaction_id
                (Datetime.isoformat dt_utc) dt_preferred_str)
      | _ => Raise ValueError
      end
  | _ => Raise ValueError
  end.

Definition deposit (now : Datetime.datetime) (value : Py.value) : M state string :=
  (value <- lift (validate_real_number value "deposit" (Some float_0_01)) ;;
   conf_code <- generation_confirmation_code now "DEPOSIT" ;;
   st <- get ;;
   set_balance (_balance (self st) + value)%Q ;;;
   ret conf_code)%monad.

Definition withdraw (now : Datetime.datetime) (value : Py.value) : M state string :=
  (value <- lift (validate_real_number value "withdraw" (Some float_0_01)) ;;
   st <- get ;;
   if Py.Qlt_bool (_balance (self st)) value then
     conf_code <- generation_confirmation_code now "REJECTED" ;;
     ret conf_code
   else
     let accepted := true in
     conf_code <- generation_confirmation_code now "WITHDRAW" ;;
     (if accepted : bool then
        st <- get ;; set_balance (_balance (self st) - value)%Q
      else ret tt) ;;;
     ret conf_code)%monad.

Definition pay_interest (now : Datetime.datetime) : M state string :=
  (st <- get ;;
   rate <- on_cls get_interest_rate ;;
   let interest := (balance (self st) * rate / (100 # 1))%Q in
   conf_code <- generation_confirmation_code now "INTEREST" ;;
   st <- get ;;
   set_balance (_balance (self st) + interest)%Q ;;;
   ret conf_code)%monad.

(** The getters. *)
Definition first_name (a : t) : string := _first_name a.
Definition last_name (a : t) : string := _last_name a.
Definition timezone (a : t) : TimeZone.t := _timezone a.

(** [full_name] *)
Definition full_name (a : t) : string :=
  (first_name a ++ " " ++ last_name a)%string.

(** [account.first_name = value]: [validate_and_set_name] and its
    [setattr]. *)
Definition set_first_name (value : option string) : M state unit :=
  fun st =>
    match validate_and_set_name value "first_name" with
    | Ok v =>
        let a := self st in
        (Ok tt,
         mkstate (cls st)
           (mk (_account_number a) v (_last_name a) (_balance a) (_timezone a)))
    | Raise e => (Raise e, st)
    end.

(** [account.last_name = value] *)
Definition set_last_name (value : option string) : M state unit :=
  fun st =>
    match validate_and_set_name value "last_name" with
    | Ok v =>
        let a := self st in
        (Ok tt,
         mkstate (cls st)
           (mk (_account_number a) (_first_name a) v (_balance a) (_timezone a)))
    | Raise e => (Raise e, st)
    end.

(** [account.timezone = value] *)
Definition assign_timezone (value : tzarg) : M state unit :=
  fun st =>
    match set_timezone value with
    | Ok tz =>
        let a := self st in
        (Ok tt,
         mkstate (cls st)
           (mk (_account_number a) (_first_name a) (_last_name a) (_balance a) tz))
    | Raise e => (Raise e, st)
    end.

End Account.

(* ================================================================= *)
(** ** Runs: calls against the class and the accounts created so far *)

Module Run.

Record world : Type := mkworld {
  cls : Account.klass;
  accounts : list Account.t
}.

(** The state of a fresh interpreter after the class body has run. *)
Definition world_init : world := mkworld Account.klass_init [].

Fixpoint update {A} (i : nat) (x : A) (l : list A) : list A :=
  match l, i with
  | [], _ => []
  | _ :: l', O => x :: l'
  | y :: l', S i' => y :: update i' x l'
  end.

(** A call made by the client program; accounts are named by the order
    of their creation. *)
Inductive call : Type :=
| New (account_number : Py.value) (first_name last_name : option string)
      (initial_balance : Py.value) (timezone : tzarg)
| Deposit (i : nat) (value : Py.value)
| Withdraw (i : nat) (value : Py.value)
| PayInterest (i : nat)
| SetInterestRate (value : Py.value)
| MakeTransactionCodes (i : nat)
| GenerationConfirmationCode (i : nat) (transaction_code : string).

Inductive returned : Type :=
| RNone
| RStr (s : string)
| RInt (z : Z)
| RAccount (i : nat).

(** Run a method on account [i]; a name bound to no account raises
    [NameError]. *)
Definition method {A} (i : nat) (m : M Account.state A) : M world A :=
  fun w =>
    match nth_error (accounts w) i with
    | None => (Raise NameError, w)
    | Some a =>
        let '(r, st) := m (Account.mkstate (cls w) a) in
        (r, mkworld (Account.cls st) (update i (Account.self st) (accounts w)))
    end.

Definition classmethod {A} (m : M Account.klass A) : M world A :=
  fun w => let '(r, c) := m (cls w) in (r, mkworld c (accounts w)).

Definition exec (now : Datetime.datetime) (c : call) : M world returned :=
  match c with
  | New n fn ln b tz =>
      fun w =>
        match Account.__init__ n fn ln b tz with
        | Ok a => (Ok (RAccount (length (accounts w))),
                   mkworld (cls w) (accounts w ++ [a])%list)
        | Raise e => (Raise e, w)
        end
  | Deposit i v => (s <- method i (Account.deposit now v) ;; ret (RStr s))%monad
  | Withdraw i v => (s <- method i (Account.withdraw now v) ;; ret (RStr s))%monad
  | PayInterest i => (s <- method i (Account.pay_interest now) ;; ret (RStr s))%monad
  | SetInterestRate v =>
      (classmethod (Account.set_interest_rate v) ;;; ret RNone)%monad
  | MakeTransactionCodes i =>
      (z <- method i Account.make_transaction_codes ;; ret (RInt z))%monad
  | GenerationConfirmationCode i k =>
      (s <- method i (Account.generation_confirmation_code now k) ;;
       ret (RStr s))%monad
  end.

(** A run: each call with the clock reading during it; an exception is
    caught by the client and the run goes on. *)
Fixpoint run (cs : list (Datetime.datetime * call)) (w : world)
  : list (result returned) * world :=
  match cs with
  | [] => ([], w)
  | (now, c) :: cs' =>
      let '(r, w') := exec now c w in
      let '(rs, w'') := run cs' w' in
      (r :: rs, w'')
  end.

(** The sequence id a call handed out, read off what it returned: the
    integer itself, or the last field of a confirmation code. *)
Definition issued_id (r : result returned) : option Z :=
  match r with
  | Ok (RInt z) => Some z
  | Ok (RStr code) => Py.int (last (Py.split "-" code) EmptyString)
  | _ => None
  end.

Fixpoint issued_ids (rs : list (result returned)) : list Z :=
  match rs with
  | [] => []
  | r :: rs' =>
      match issued_id r with
      | Some z => z :: issued_ids rs'
      | None => issued_ids rs'
      end
  end.

End Run.

(* ================================================================= *)
(** ** Client programs that also assign to the properties *)

Module Client.

Inductive call : Type :=
| Base (c : Run.call)
| SetFirstName (i : nat) (value : option string)
| SetLastName (i : nat) (value : option string)
| SetTimezone (i : nat) (value : tzarg).

Definition exec (now : Datetime.datetime) (c : call) : M Run.world Run.returned :=
  match c with
  | Base c => Run.exec now c
  | SetFirstName i v =>
      (Run.method i (Account.set_first_name v) ;;; ret Run.RNone)%monad
  | SetLastName i v =>
      (Run.method i (Account.set_last_name v) ;;; ret Run.RNone)%monad
  | SetTimezone i v =>
      (Run.method i (Account.assign_timezone v) ;;; ret Run.RNone)%monad
  end.

Fixpoint run (cs : list (Datetime.datetime * call)) (w : Run.world)
  : list (result Run.returned) * Run.world :=
  match cs with
  | [] => ([], w)
  | (now, c) :: cs' =>
      let '(r, w') := exec now c w in
      let '(rs, w'') := run cs' w' in
      (r :: rs, w'')
  end.

End Client.

(* ================================================================= *)
(** ** Vocabulary of the statements *)

(** The single-character tag of a transaction kind. *)
Definition tag (k : Transaction_Code.t) : string :=
  match k with
  | Transaction_Code.DEPOSIT => "D"
  | Transaction_Code.WITHDRAW => "W"
  | Transaction_Code.INTEREST => "I"
  | Transaction_Code.REJECTED => "X"
  end.

(** The text of a confirmation code with the given four fields. *)
Definition code_text (t : string) (acct : Z) (now : Datetime.datetime) (id : Z)
  : string :=
  t ++ "-" ++ Py.str acct ++ "-" ++ Datetime.strftime now ++ "-" ++ Py.str id.

(** The state after one id has been drawn from the shared counter. *)
Definition drawn (st : Account.state) : Account.state :=
  Account.mkstate
    (Account.mkklass (Account._interest_rate (Account.cls st))
       (Account.transaction_counter (Account.cls st) + 1))
    (Account.self st).

(** The state with the receiver's balance replaced. *)
Definition with_balance (b : Q) (st : Account.state) : Account.state :=
  let a := Account.self st in
  Account.mkstate (Account.cls st)
    (Account.mk (Account._account_number a) (Account._first_name a)
       (Account._last_name a) b (Account._timezone a)).

Definition counter_of (st : Account.state) : Z :=
  Account.transaction_counter (Account.cls st).

Definition rate_of (st : Account.state) : Q :=
  Account._interest_rate (Account.cls st).

Definition balance_of (st : Account.state) : Q :=
  Account.balance (Account.self st).

Definition number_of (st : Account.state) : Z :=
  Account.account_number (Account.self st).

(** The fixture of [TestAccount.setUp]: account 400 with balance 100.00
    in time zone IR (+3:30), in a fresh class state, at some clock
    reading. *)
Definition test_tz : TimeZone.t := TimeZone.mk "IR" 3 30 12600.

Definition test_account : Account.t :=
  Account.mk 400 "Mohammad" "Jalalnia" (100 # 1) test_tz.

Definition test_state : Account.state :=
  Account.mkstate Account.klass_init test_account.

Definition test_now : Datetime.datetime :=
  Datetime.mkdatetime 2026 11 5 9 8 7.

(** The integers from [lo] up to, not including, [hi]. *)
Fixpoint Zrange_from (lo : Z) (n : nat) : list Z :=
  match n with
  | O => []
  | S n' => lo :: Zrange_from (lo + 1) n'
  end.

Definition Zrange (lo hi : Z) : list Z := Zrange_from lo (Z.to_nat (hi - lo)).

(** A digit or a blank: the only characters the regular expression of
    the timestamp format can consume. *)
Definition digit_or_space (c : ascii) : bool :=
  Py.isdecimal c || Ascii.eqb c " ".

(** The time zone a parsed code is displayed in. *)
Definition display_zone (a : tzarg) : TimeZone.t :=
  match a with
  | TzObj tz => tz
  | _ => TimeZone.mk "UTC" 0 0 0
  end.

(** The display zone is absent, or it is a [TimeZone] whose offset keeps
    the timestamp within the years 1 to 9999. *)
Definition zone_in_range (dt : Datetime.datetime) (a : tzarg) : Prop :=
  match a with
  | TzNone => True
  | TzObj tz => is_ok (Datetime.add dt (TimeZone.offset tz)) = true
  | TzOther _ => False
  end.

(** Shortest and longest alternative of a group, and of a sequence of
    groups. *)
Definition group_max (g : Datetime.group) : nat :=
  fold_right (fun a n => Nat.max (length a) n) 0%nat g.

Definition group_min (g : Datetime.group) : nat :=
  fold_right (fun a n => Nat.min (length a) n) (group_max g) g.

Definition groups_min (gs : list Datetime.group) : nat :=
  fold_right (fun g n => (group_min g + n)%nat) 0%nat gs.

Definition groups_max (gs : list Datetime.group) : nat :=
  fold_right (fun g n => (group_max g + n)%nat) 0%nat gs.

(** Every character a class accepts is a digit or a blank. *)
Definition class_ok (k : Datetime.cclass) : Prop :=
  forall c, Datetime.cmatch k c = true -> digit_or_space c = true.

(** The shared counter and rate of a world, and the invariant of runs:
    the rate and every balance are non-negative. *)
Definition world_counter (w : Run.world) : Z :=
  Account.transaction_counter (Run.cls w).

Definition world_rate (w : Run.world) : Q :=
  Account._interest_rate (Run.cls w).


(** What [Run.method] does on an account that exists. *)
Definition method_on {A} (i : nat) (m : M Account.state A) (w : Run.world)
    (a : Account.t) : result A * Run.world :=
  let rs := m (Account.mkstate (Run.cls w) a) in
  (fst rs,
   Run.mkworld (Account.cls (snd rs))
     (Run.update i (Account.self (snd rs)) (Run.accounts w))).

(** A name that [validate_and_set_name] accepts. *)
Definition nonblank (s : string) : Prop := Py.strip s <> EmptyString.

(** What every account satisfies once it is constructed. *)
Definition account_ok (a : Account.t) : Prop :=
  0 <= Account.account_number a
  /\ nonblank (Account.first_name a)
  /\ nonblank (Account.last_name a)
  /\ (0 <= Account.balance a)%Q.

(** The account a call of a client program is made on. *)
Definition target (c : Client.call) : option nat :=
  match c with
  | Client.Base (Run.Deposit i _) | Client.Base (Run.Withdraw i _)
  | Client.Base (Run.PayInterest i) | Client.Base (Run.MakeTransactionCodes i)
  | Client.Base (Run.GenerationConfirmationCode i _)
  | Client.SetFirstName i _ | Client.SetLastName i _
  | Client.SetTimezone i _ => Some i
  | Client.Base (Run.New _ _ _ _ _) | Client.Base (Run.SetInterestRate _) => None
  end.

(** A method keeps the receiver's number and the class-wide rate, and
    keeps the receiver well-formed when the rate is not negative. *)
Definition keeps {A} (m : M Account.state A) : Prop :=
  forall st,
    number_of (snd (m st)) = number_of st
    /\ rate_of (snd (m st)) = rate_of st
    /\ ((0 <= rate_of st)%Q -> account_ok (Account.self st) ->
        account_ok (Account.self (snd (m st)))).




(** [[next(t) for _ in range(n)]] on a [TransactionID]. *)
Fixpoint next_n (n : nat) : M TransactionID.t (list Z) :=
  match n with
  | O => ret []
  | S n' =>
      (z <- TransactionID.__next__ ;; zs <- next_n n' ;; ret (z :: zs))%monad
  end.

(** The confirmation codes among the results of a run. *)
Fixpoint codes (rs : list (result Run.returned)) : list string :=
  match rs with
  | [] => []
  | Ok (Run.RStr s) :: rs' => s :: codes rs'
  | _ :: rs' => codes rs'
  end.



(* ================================================================= *)
(** * Properties *)

(** ** Comparison of rationals *)

Lemma Qlt_bool_true (x y : Q) : Py.Qlt_bool x y = true <-> (x < y)%Q.
Proof.
  unfold Py.Qlt_bool. rewrite negb_true_iff. split.
  - intros H. apply Qnot_le_lt. intros L.
    apply Qle_bool_iff in L. congruence.
  - intros H. destruct (Qle_bool y x) eqn:E; [|reflexivity].
    apply Qle_bool_iff in E. exfalso. exact (Qlt_not_le _ _ H E).
Qed.

Lemma Qlt_bool_false (x y : Q) : Py.Qlt_bool x y = false <-> (y <= x)%Q.
Proof.
  unfold Py.Qlt_bool. rewrite negb_false_iff. apply Qle_bool_iff.
Qed.

(** [float_0_01] is the double that the literal [0.01] denotes: a
    53-bit significand over [2^59], within half a unit in the last
    place of 1/100. *)
Lemma float_0_01_nearest :
  2 ^ 52 <= Qnum Account.float_0_01 < 2 ^ 53
  /\ Qden Account.float_0_01 = (2 ^ 59)%positive
  /\ (Qabs (Account.float_0_01 - (1 # 100)) <= 1 # (2 ^ 60))%Q
  /\ (1 # 100 < Account.float_0_01)%Q.
Proof.
  repeat split; try reflexivity; vm_compute; discriminate.
Qed.

(** ** Confirmation codes for the four kinds *)

Lemma generation_known now k st :
  Account.generation_confirmation_code now (Transaction_Code.name k) st
  = (Ok (code_text (tag k) (number_of st) now (counter_of st)), drawn st).
Proof. destruct k; reflexivity. Qed.

Lemma generation_unknown now name st :
  Transaction_Code.getitem name = Raise KeyError ->
  Account.generation_confirmation_code now name st = (Raise KeyError, st).
Proof.
  intros H. unfold Account.generation_confirmation_code, bind, lift.
  rewrite H. reflexivity.
Qed.

Lemma getitem_spec name :
  (exists k, name = Transaction_Code.name k /\ Transaction_Code.getitem name = Ok k)
  \/ ((forall k, name <> Transaction_Code.name k)
      /\ Transaction_Code.getitem name = Raise KeyError).
Proof.
  unfold Transaction_Code.getitem.
  destruct (String.eqb_spec name "DEPOSIT") as [->|H1];
    [left; exists Transaction_Code.DEPOSIT; split; reflexivity|].
  destruct (String.eqb_spec name "WITHDRAW") as [->|H2];
    [left; exists Transaction_Code.WITHDRAW; split; reflexivity|].
  destruct (String.eqb_spec name "INTEREST") as [->|H3];
    [left; exists Transaction_Code.INTEREST; split; reflexivity|].
  destruct (String.eqb_spec name "REJECTED") as [->|H4];
    [left; exists Transaction_Code.REJECTED; split; reflexivity|].
  right. split; [|reflexivity]. intros [] E; subst; simpl in *; congruence.
Qed.


(* ================================================================= *)
(** ** Deposits, withdrawals and interest *)

Lemma validate_real_number_spec v title lo :
  match Py.as_Real v with
  | None => Account.validate_real_number v title (Some lo) = Raise ValueError
  | Some q =>
      ((q < lo)%Q /\ Account.validate_real_number v title (Some lo) = Raise ValueError)
      \/ ((lo <= q)%Q /\ Account.validate_real_number v title (Some lo) = Ok q)
  end.
Proof.
  unfold Account.validate_real_number.
  destruct (Py.as_Real v) as [q|]; [|reflexivity].
  destruct (Py.Qlt_bool q lo) eqn:E.
  - left. split; [apply Qlt_bool_true; exact E|reflexivity].
  - right. split; [apply Qlt_bool_false; exact E|reflexivity].
Qed.

Lemma validate_real_number_ok v title lo q :
  Py.as_Real v = Some q -> (lo <= q)%Q ->
  Account.validate_real_number v title (Some lo) = Ok q.
Proof.
  intros Hv Hq. pose proof (validate_real_number_spec v title lo) as H.
  rewrite Hv in H. destruct H as [[H _]|[_ H]]; [|exact H].
  exfalso. exact (Qlt_not_le _ _ H Hq).
Qed.

Lemma validate_real_number_low v title lo q :
  Py.as_Real v = Some q -> (q < lo)%Q ->
  Account.validate_real_number v title (Some lo) = Raise ValueError.
Proof.
  intros Hv Hq. pose proof (validate_real_number_spec v title lo) as H.
  rewrite Hv in H. destruct H as [[_ H]|[H _]]; [exact H|].
  exfalso. exact (Qlt_not_le _ _ Hq H).
Qed.

Lemma validate_real_number_nonreal v title lo :
  Py.as_Real v = None ->
  Account.validate_real_number v title lo = Raise ValueError.
Proof.
  intros Hv. unfold Account.validate_real_number. rewrite Hv. reflexivity.
Qed.






Lemma set_interest_rate_bad v c :
  (Py.as_Real v = None \/ exists r, Py.as_Real v = Some r /\ (r < 0)%Q) ->
  Account.set_interest_rate v c = (Raise ValueError, c).
Proof.
  unfold Account.set_interest_rate. intros [Hv|[r [Hv Hr]]]; rewrite Hv.
  - reflexivity.
  - apply Qlt_bool_true in Hr. rewrite Hr. reflexivity.
Qed.

Lemma pay_interest_eq now st :
  Account.pay_interest now st
  = (Ok (code_text "I" (number_of st) now (counter_of st)),
     with_balance (balance_of st + balance_of st * rate_of st / (100 # 1))
       (drawn st)).
Proof.
  unfold Account.pay_interest, bind at 1, get.
  unfold bind at 1, Account.on_cls, Account.get_interest_rate.
  unfold bind at 1.
  rewrite (generation_known now Transaction_Code.INTEREST).
  reflexivity.
Qed.



(* ================================================================= *)
(** ** The kind of a confirmation code *)

(** C5 (as the code has it).  For each of the four kinds
    [generation_confirmation_code] uses the tag D, W, I or X, the first
    item of the member's value, and draws one id; for any other name
    the enum lookup raises KeyError (not ValueError) before an id is
    drawn, and the state is left as it was. *)
Theorem C5_generation_kind now name st :
  (forall k, name = Transaction_Code.name k ->
     Transaction_Code.item0 (Transaction_Code.value k) = Ok (tag k)
     /\ Account.generation_confirmation_code now name st
        = (Ok (code_text (tag k) (number_of st) now (counter_of st)), drawn st))
  /\ ((forall k, name <> Transaction_Code.name k) ->
      Account.generation_confirmation_code now name st = (Raise KeyError, st)).
Proof.
  split.
  - intros k ->. split; [destruct k; reflexivity|apply generation_known].
  - intros Hn. apply generation_unknown.
    destruct (getitem_spec name) as [[k [E _]]|[_ E]]; [|exact E].
    exfalso. exact (Hn k E).
Qed.

Lemma unknown_kind_TRANSFER : forall k, "TRANSFER" <> Transaction_Code.name k.
Proof. intros []; discriminate. Qed.

Lemma C5_generation_kind_witness :
  Account.generation_confirmation_code test_now "REJECTED" test_state
  = (Ok "X-400-20261105090807-100", drawn test_state)
  /\ Account.generation_confirmation_code test_now "TRANSFER" test_state
     = (Raise KeyError, test_state).
Proof.
  destruct (C5_generation_kind test_now "REJECTED" test_state) as [H1 _].
  destruct (C5_generation_kind test_now "TRANSFER" test_state) as [_ H2].
  split.
  - apply (H1 Transaction_Code.REJECTED). reflexivity.
  - apply H2. exact unknown_kind_TRANSFER.
Defined.

(** C5, as claimed, fails: a name outside the enumeration does not
    raise ValueError. *)
Lemma C5_counterexample :
  (forall k, "TRANSFER" <> Transaction_Code.name k)
  /\ fst (Account.generation_confirmation_code test_now "TRANSFER" test_state)
     = Raise KeyError
  /\ fst (Account.generation_confirmation_code test_now "TRANSFER" test_state)
     <> Raise ValueError.
Proof.
  split; [exact unknown_kind_TRANSFER|].
  split; [reflexivity|discriminate].
Qed.

(* ================================================================= *)
(** ** Time zones *)

Lemma strip_empty_length n :
  (String.length (Py.strip n) =? 0)%nat = true <-> Py.strip n = EmptyString.
Proof.
  rewrite Nat.eqb_eq. destruct (Py.strip n); simpl; split; congruence.
Qed.

Lemma strip_nonempty_length n :
  Py.strip n <> EmptyString -> (String.length (Py.strip n) =? 0)%nat = false.
Proof.
  intros H. destruct (String.length (Py.strip n) =? 0)%nat eqn:E; [|reflexivity].
  apply strip_empty_length in E. contradiction.
Qed.

(** Linear arithmetic with floor division by constants. *)
Ltac dlia := Z.to_euclidean_division_equations; lia.

(** The constructor on integer offsets, as one chain of tests. *)
Lemma TimeZone_init_int n h m :
  TimeZone.__init__ (Some n) (Py.VInt h) (Py.VInt m)
  = if (String.length (Py.strip n) =? 0)%nat then Raise ValueError
    else if (m <? -59) || (m >? 59) then Raise ValueError
    else if Z.abs ((h * 3600 + m * 60) / 86400) >? 999999999
         then Raise OverflowError
    else if (h * 3600 + m * 60 <? -43200) || (h * 3600 + m * 60 >? 50400)
         then Raise ValueError
    else Ok (TimeZone.mk (Py.strip n) h m (h * 3600 + m * 60)).
Proof.
  unfold TimeZone.__init__, Py.as_Integral, Datetime.timedelta_new.
  destruct (String.length (Py.strip n) =? 0)%nat; [reflexivity|].
  destruct ((m <? -59) || (m >? 59)); [reflexivity|].
  destruct (Z.abs ((h * 3600 + m * 60) / 86400) >? 999999999); reflexivity.
Qed.




(* ================================================================= *)
(** ** Strings: [split], [strip], decimal digits *)

Lemma split_nonempty sep s : Py.split sep s <> [].
Proof.
  destruct s as [|c s]; simpl; [discriminate|].
  destruct (Ascii.eqb c sep); [discriminate|].
  destruct (Py.split sep s); discriminate.
Qed.

Lemma split_no_sep sep s : Py.contains sep s = false -> Py.split sep s = [s].
Proof.
  induction s as [|c s IH]; simpl; [reflexivity|].
  intros H. apply orb_false_iff in H. destruct H as [Hc Hs].
  rewrite Hc, (IH Hs). reflexivity.
Qed.

(** Splitting distributes over a separator in the text. *)
Lemma split_app_sep sep a r :
  Py.split sep (a ++ String sep r) = (Py.split sep a ++ Py.split sep r)%list.
Proof.
  induction a as [|c a IH]; simpl.
  - rewrite Ascii.eqb_refl. reflexivity.
  - destruct (Ascii.eqb c sep).
    + rewrite IH. reflexivity.
    + rewrite IH. pose proof (split_nonempty sep a) as Hn.
      destruct (Py.split sep a); [contradiction|reflexivity].
Qed.

Lemma split_fields sep a b c d :
  Py.contains sep a = false -> Py.contains sep b = false ->
  Py.contains sep c = false -> Py.contains sep d = false ->
  Py.split sep (a ++ String sep (b ++ String sep (c ++ String sep d)))
  = [a; b; c; d].
Proof.
  intros Ha Hb Hc Hd.
  rewrite !split_app_sep.
  rewrite (split_no_sep _ _ Ha), (split_no_sep _ _ Hb),
    (split_no_sep _ _ Hc), (split_no_sep _ _ Hd).
  reflexivity.
Qed.

Lemma last_split_app_sep sep a r :
  Py.contains sep r = false ->
  last (Py.split sep (a ++ String sep r)) EmptyString = r.
Proof.
  intros Hr. rewrite split_app_sep, (split_no_sep _ _ Hr).
  apply last_last.
Qed.

Lemma all_chars_app p s t :
  Py.all_chars p (s ++ t) = Py.all_chars p s && Py.all_chars p t.
Proof.
  induction s as [|c s IH]; simpl; [reflexivity|].
  rewrite IH. apply andb_assoc.
Qed.

Lemma all_chars_impl (p q : ascii -> bool) s :
  (forall c, p c = true -> q c = true) ->
  Py.all_chars p s = true -> Py.all_chars q s = true.
Proof.
  intros Hpq. induction s as [|c s IH]; simpl; [reflexivity|].
  intros H. apply andb_true_iff in H. destruct H as [Hc Hs].
  rewrite (Hpq _ Hc), (IH Hs). reflexivity.
Qed.

Lemma isdecimal_not_dash c : Py.isdecimal c = true -> Ascii.eqb c "-" = false.
Proof.
  intros H. destruct (Ascii.eqb_spec c "-") as [->|]; [discriminate|reflexivity].
Qed.

Lemma isdecimal_not_space c : Py.isdecimal c = true -> Py.isspace c = false.
Proof.
  unfold Py.isdecimal, Py.isspace. intros H.
  apply andb_true_iff in H. destruct H as [H1 H2].
  apply Nat.leb_le in H1. apply Nat.leb_le in H2.
  repeat rewrite orb_false_iff. repeat split.
  - apply andb_false_iff. right. apply Nat.leb_gt. lia.
  - apply andb_false_iff. right. apply Nat.leb_gt. lia.
  - apply Nat.eqb_neq. lia.
  - apply Nat.eqb_neq. lia.
Qed.

Lemma digits_no_dash s :
  Py.all_chars Py.isdecimal s = true -> Py.contains "-" s = false.
Proof.
  induction s as [|c s IH]; simpl; [reflexivity|].
  intros H. apply andb_true_iff in H. destruct H as [Hc Hs].
  rewrite (isdecimal_not_dash _ Hc), (IH Hs). reflexivity.
Qed.

Lemma rstrip_no_space s :
  Py.all_chars (fun c => negb (Py.isspace c)) s = true -> Py.rstrip s = s.
Proof.
  induction s as [|c s IH]; simpl; [reflexivity|].
  intros H. apply andb_true_iff in H. destruct H as [Hc Hs].
  rewrite (IH Hs). apply negb_true_iff in Hc. rewrite Hc.
  destruct s; reflexivity.
Qed.

Lemma strip_digits s : Py.all_chars Py.isdecimal s = true -> Py.strip s = s.
Proof.
  intros H. unfold Py.strip.
  assert (Hs : Py.all_chars (fun c => negb (Py.isspace c)) s = true).
  { revert H. apply all_chars_impl. intros c Hc.
    rewrite (isdecimal_not_space _ Hc). reflexivity. }
  replace (Py.lstrip s) with s; [apply rstrip_no_space; exact Hs|].
  destruct s as [|c s]; simpl; [reflexivity|].
  simpl in Hs. apply andb_true_iff in Hs. destruct Hs as [Hc _].
  apply negb_true_iff in Hc. rewrite Hc. reflexivity.
Qed.

Lemma string_of_uint_digits d :
  Py.all_chars Py.isdecimal (NilEmpty.string_of_uint d) = true.
Proof. induction d; simpl; auto. Qed.

Lemma str_digits z : 0 <= z -> Py.all_chars Py.isdecimal (Py.str z) = true.
Proof.
  intros Hz. unfold Py.str. destruct z as [|p|p]; [reflexivity| |lia].
  simpl. unfold NilZero.string_of_uint.
  destruct (Pos.to_uint p); try apply string_of_uint_digits. reflexivity.
Qed.

Lemma str_no_dash z : 0 <= z -> Py.contains "-" (Py.str z) = false.
Proof. intros Hz. apply digits_no_dash, str_digits, Hz. Qed.

(** [int(str(z)) == z] *)
Lemma int_str z : 0 <= z -> Py.int (Py.str z) = Some z.
Proof.
  intros Hz. unfold Py.int. rewrite (strip_digits _ (str_digits z Hz)).
  unfold Py.str. rewrite NilZero.isi.
  - simpl. rewrite DecimalZ.of_to. reflexivity.
  - destruct z; simpl; try discriminate.
    intros E. injection E as E. exact (DecimalPos.Unsigned.to_uint_nonnil _ E).
  - destruct z; simpl; try discriminate. lia.
Qed.

(* ================================================================= *)
(** ** Timestamps: [strftime] and [strptime] *)

Lemma Zrange_from_In n : forall lo z, lo <= z < lo + Z.of_nat n -> In z (Zrange_from lo n).
Proof.
  induction n as [|n IH]; intros lo z Hz; [lia|].
  simpl. destruct (Z.eq_dec lo z) as [E|E]; [left; exact E|].
  right. apply IH. lia.
Qed.

Lemma Zrange_forallb (P : Z -> bool) lo hi :
  forallb P (Zrange lo hi) = true ->
  forall z, lo <= z < hi -> P z = true.
Proof.
  intros H z Hz. rewrite forallb_forall in H. apply H.
  unfold Zrange. apply Zrange_from_In. lia.
Qed.

Lemma zeros_digits n : Py.all_chars Py.isdecimal (Datetime.zeros n) = true.
Proof. induction n; simpl; auto. Qed.

Lemma pad_digits w z :
  0 <= z -> Py.all_chars Py.isdecimal (Datetime.pad w z) = true.
Proof.
  intros Hz. unfold Datetime.pad.
  rewrite all_chars_app, zeros_digits, (str_digits z Hz). reflexivity.
Qed.

Lemma int_pad2 n : 0 <= n <= 99 -> Py.int (Datetime.pad 2 n) = Some n.
Proof.
  intros Hn.
  pose proof (Zrange_forallb
                (fun n => match Py.int (Datetime.pad 2 n) with
                          | Some v => v =? n
                          | None => false
                          end) 0 100) as H.
  specialize (H ltac:(vm_compute; reflexivity) n ltac:(lia)).
  cbv beta in H. destruct (Py.int (Datetime.pad 2 n)); [|discriminate].
  apply Z.eqb_eq in H. congruence.
Qed.

Lemma int_pad4 y : 0 <= y <= 9999 -> Py.int (Datetime.pad 4 y) = Some y.
Proof.
  intros Hy.
  pose proof (Zrange_forallb
                (fun n => match Py.int (Datetime.pad 4 n) with
                          | Some v => v =? n
                          | None => false
                          end) 0 10000) as H.
  specialize (H ltac:(vm_compute; reflexivity) y ltac:(lia)).
  cbv beta in H. destruct (Py.int (Datetime.pad 4 y)); [|discriminate].
  apply Z.eqb_eq in H. congruence.
Qed.

Lemma pad4_shape y :
  0 <= y <= 9999 ->
  exists a b c d,
    Datetime.pad 4 y = String a (String b (String c (String d EmptyString)))
    /\ Py.isdecimal a = true /\ Py.isdecimal b = true
    /\ Py.isdecimal c = true /\ Py.isdecimal d = true.
Proof.
  intros Hy.
  pose proof (Zrange_forallb
                (fun n => match Datetime.pad 4 n with
                          | String a (String b (String c (String d EmptyString))) =>
                              true
                          | _ => false
                          end) 0 10000) as H.
  specialize (H ltac:(vm_compute; reflexivity) y ltac:(lia)).
  cbv beta in H. pose proof (pad_digits 4 y (proj1 Hy)) as D.
  destruct (Datetime.pad 4 y) as [|a [|b [|c [|d [|]]]]]; try discriminate.
  simpl in D. rewrite !andb_true_iff in D.
  exists a, b, c, d. tauto.
Qed.

Lemma cmatch_Digit c : Datetime.cmatch Datetime.Digit c = Py.isdecimal c.
Proof. reflexivity. Qed.

(** *** One directive at a time: a zero-padded field is consumed whole *)

Section Steps.

Variables (gs : list Datetime.group) (rest r : string) (ms : list string).
Hypothesis Hrest : Datetime.match_groups gs rest = Some (ms, r).

Local Tactic Notation "field_cases" ident(k) integer(bound) :=
  do bound (destruct k as [|k]; [first [lia|simpl; rewrite Hrest; reflexivity]|]);
  lia.

Lemma step_Y y :
  0 <= y <= 9999 ->
  Datetime.match_groups (Datetime.re_Y :: gs) (Datetime.pad 4 y ++ rest)
  = Some (Datetime.pad 4 y :: ms, r).
Proof.
  intros Hy. destruct (pad4_shape y Hy) as [a [b [c [d [E [Ha [Hb [Hc Hd]]]]]]]].
  rewrite E. unfold Datetime.re_Y.
  do 5 (cbn [Datetime.match_groups Datetime.first_some Datetime.match_alt append];
        rewrite ?cmatch_Digit, ?Ha, ?Hb, ?Hc, ?Hd).
  rewrite Hrest. reflexivity.
Qed.

Lemma step_m n :
  1 <= n <= 12 ->
  Datetime.match_groups (Datetime.re_m :: gs) (Datetime.pad 2 n ++ rest)
  = Some (Datetime.pad 2 n :: ms, r).
Proof.
  intros Hn.
  assert (E : exists k, n = Z.of_nat k) by (exists (Z.to_nat n); lia).
  destruct E as [k ->]. field_cases k 13.
Qed.

Lemma step_d n :
  1 <= n <= 31 ->
  Datetime.match_groups (Datetime.re_d :: gs) (Datetime.pad 2 n ++ rest)
  = Some (Datetime.pad 2 n :: ms, r).
Proof.
  intros Hn.
  assert (E : exists k, n = Z.of_nat k) by (exists (Z.to_nat n); lia).
  destruct E as [k ->]. field_cases k 32.
Qed.

Lemma step_H n :
  0 <= n <= 23 ->
  Datetime.match_groups (Datetime.re_H :: gs) (Datetime.pad 2 n ++ rest)
  = Some (Datetime.pad 2 n :: ms, r).
Proof.
  intros Hn.
  assert (E : exists k, n = Z.of_nat k) by (exists (Z.to_nat n); lia).
  destruct E as [k ->]. field_cases k 24.
Qed.

Lemma step_M n :
  0 <= n <= 59 ->
  Datetime.match_groups (Datetime.re_M :: gs) (Datetime.pad 2 n ++ rest)
  = Some (Datetime.pad 2 n :: ms, r).
Proof.
  intros Hn.
  assert (E : exists k, n = Z.of_nat k) by (exists (Z.to_nat n); lia).
  destruct E as [k ->]. field_cases k 60.
Qed.

Lemma step_S n :
  0 <= n <= 59 ->
  Datetime.match_groups (Datetime.re_S :: gs) (Datetime.pad 2 n ++ rest)
  = Some (Datetime.pad 2 n :: ms, r).
Proof.
  intros Hn.
  assert (E : exists k, n = Z.of_nat k) by (exists (Z.to_nat n); lia).
  destruct E as [k ->]. field_cases k 60.
Qed.

End Steps.

(** *** The round trip of a timestamp *)

Lemma valid_fields dt :
  Datetime.valid dt = true ->
  1 <= Datetime.year dt <= 9999
  /\ 1 <= Datetime.month dt <= 12
  /\ 1 <= Datetime.day dt <= Datetime._days_in_month (Datetime.year dt) (Datetime.month dt)
  /\ 0 <= Datetime.hour dt <= 23
  /\ 0 <= Datetime.minute dt <= 59
  /\ 0 <= Datetime.second dt <= 59.
Proof.
  unfold Datetime.valid, Datetime.fields_ok, Datetime.MINYEAR, Datetime.MAXYEAR.
  rewrite !andb_true_iff, !Z.leb_le. tauto.
Qed.

Lemma month_cases m :
  1 <= m <= 12 ->
  m = 1 \/ m = 2 \/ m = 3 \/ m = 4 \/ m = 5 \/ m = 6
  \/ m = 7 \/ m = 8 \/ m = 9 \/ m = 10 \/ m = 11 \/ m = 12.
Proof. lia. Qed.

Lemma days_in_month_le y m :
  1 <= m <= 12 -> Datetime._days_in_month y m <= 31.
Proof.
  intros Hm. unfold Datetime._days_in_month.
  pose proof (month_cases m Hm) as Hc.
  destruct (Datetime._is_leap y);
    repeat (destruct Hc as [Hc|Hc]); subst m; simpl; lia.
Qed.

(** The days up to the end of a month do not exceed the year. *)
Lemma month_end_le y m :
  1 <= m <= 12 ->
  0 <= Datetime._days_before_month y m
  /\ Datetime._days_before_month y m + Datetime._days_in_month y m
     <= 365 + (if Datetime._is_leap y then 1 else 0).
Proof.
  intros Hm. unfold Datetime._days_before_month, Datetime._days_in_month.
  pose proof (month_cases m Hm) as Hc.
  destruct (Datetime._is_leap y);
    repeat (destruct Hc as [Hc|Hc]); subst m; simpl; lia.
Qed.

Lemma strftime_digits dt :
  Datetime.valid dt = true ->
  Py.all_chars Py.isdecimal (Datetime.strftime dt) = true.
Proof.
  intros V. apply valid_fields in V. unfold Datetime.strftime.
  rewrite !all_chars_app, !pad_digits by lia. reflexivity.
Qed.

Lemma match_strftime dt :
  Datetime.valid dt = true ->
  Datetime.match_groups Datetime.format_regex (Datetime.strftime dt)
  = Some ([Datetime.pad 4 (Datetime.year dt); Datetime.pad 2 (Datetime.month dt);
           Datetime.pad 2 (Datetime.day dt); Datetime.pad 2 (Datetime.hour dt);
           Datetime.pad 2 (Datetime.minute dt); Datetime.pad 2 (Datetime.second dt)],
          EmptyString).
Proof.
  intros V. pose proof (valid_fields dt V) as [Hy [Hm [Hd [HH [HM HS]]]]].
  pose proof (days_in_month_le (Datetime.year dt) (Datetime.month dt) Hm) as Hd'.
  unfold Datetime.strftime, Datetime.format_regex.
  replace (Datetime.pad 2 (Datetime.second dt))
    with (Datetime.pad 2 (Datetime.second dt) ++ EmptyString) at 1.
  2:{ generalize (Datetime.pad 2 (Datetime.second dt)).
      intros s. induction s; simpl; congruence. }
  apply step_Y; [|lia]. apply step_m; [|lia]. apply step_d; [|lia].
  apply step_H; [|lia]. apply step_M; [|lia]. apply step_S; [|lia].
  reflexivity.
Qed.

(** [strptime] reads back what [strftime] wrote. *)
Lemma strptime_strftime dt :
  Datetime.valid dt = true ->
  Datetime.strptime (Datetime.strftime dt) = Ok dt.
Proof.
  intros V. pose proof (valid_fields dt V) as [Hy [Hm [Hd [HH [HM HS]]]]].
  pose proof (days_in_month_le (Datetime.year dt) (Datetime.month dt) Hm) as Hd'.
  unfold Datetime.strptime. rewrite (match_strftime dt V).
  rewrite int_pad4 by lia. rewrite !int_pad2 by lia.
  unfold Datetime.new. unfold Datetime.valid in V. rewrite V.
  destruct dt; reflexivity.
Qed.

(** *** Ordinals stay in range *)

Lemma ymd2ord_range y m d :
  1 <= y <= 9999 -> 1 <= m <= 12 -> 1 <= d <= Datetime._days_in_month y m ->
  1 <= Datetime._ymd2ord y m d <= Datetime._MAXORDINAL.
Proof.
  intros Hy Hm Hd.
  pose proof (Zrange_forallb
                (fun y =>
                   (0 <=? Datetime._days_before_year y)
                   && (Datetime._days_before_year y + 365
                       + (if Datetime._is_leap y then 1 else 0)
                       <=? Datetime._MAXORDINAL)) 1 10000) as H.
  specialize (H ltac:(vm_compute; reflexivity) y ltac:(lia)).
  cbv beta in H. apply andb_true_iff in H. destruct H as [H1 H2].
  apply Z.leb_le in H1. apply Z.leb_le in H2.
  pose proof (month_end_le y m Hm) as [H3 H4].
  unfold Datetime._ymd2ord. lia.
Qed.

Lemma toordinal_range dt :
  Datetime.valid dt = true ->
  1 <= Datetime.toordinal dt <= Datetime._MAXORDINAL.
Proof.
  intros V. pose proof (valid_fields dt V) as [Hy [Hm [Hd _]]].
  apply ymd2ord_range; assumption.
Qed.

(** Adding a zero offset (UTC) never leaves the range of dates. *)
Lemma add_zero_ok dt :
  Datetime.valid dt = true -> is_ok (Datetime.add dt 0) = true.
Proof.
  intros V. pose proof (valid_fields dt V) as [_ [_ [_ [HH [HM HS]]]]].
  pose proof (toordinal_range dt V) as Ho.
  unfold Datetime.add.
  set (secs := Datetime.hour dt * 3600 + Datetime.minute dt * 60 + Datetime.second dt).
  assert (E : (Datetime.toordinal dt * 86400 + secs + 0) / 86400
              = Datetime.toordinal dt) by (subst secs; dlia).
  rewrite E.
  replace ((0 <? Datetime.toordinal dt)
           && (Datetime.toordinal dt <=? Datetime._MAXORDINAL)) with true by lia.
  destruct (Datetime._ord2ymd (Datetime.toordinal dt)) as [[y m] d].
  reflexivity.
Qed.

Lemma utc_timezone :
  TimeZone.__init__ (Some "UTC") (Py.VInt 0) (Py.VInt 0)
  = Ok (TimeZone.mk "UTC" 0 0 0).
Proof. reflexivity. Qed.

(* ================================================================= *)
(** ** Parsing a confirmation code *)

(** A code of four fields with a well-formed timestamp parses, and the
    other three fields come back as they are. *)
Lemma parse_fields code tc acct tid dt tzarg :
  Py.split "-" code = [tc; acct; Datetime.strftime dt; tid] ->
  Datetime.valid dt = true ->
  zone_in_range dt tzarg ->
  exists dt',
    Datetime.add dt (TimeZone.offset (display_zone tzarg)) = Ok dt'
    /\ Account.parse_confirmation_code code tzarg
       = Ok (mkConfirmation acct tc tid (Datetime.isoformat dt)
               (Datetime.strftime dt' ++ " (" ++ TimeZone.name (display_zone tzarg)
                ++ ")")).
Proof.
  intros Hs V Hz. unfold Account.parse_confirmation_code.
  rewrite Hs, (strptime_strftime dt V).
  destruct tzarg as [|tz|v]; simpl in Hz; [| |contradiction].
  - rewrite utc_timezone. simpl display_zone.
    pose proof (add_zero_ok dt V) as H0.
    change (TimeZone.offset (TimeZone.mk "UTC" 0 0 0)) with 0.
    destruct (Datetime.add dt 0) as [dt'|e]; [|discriminate].
    exists dt'. split; reflexivity.
  - simpl display_zone.
    destruct (Datetime.add dt (TimeZone.offset tz)) as [dt'|e]; [|discriminate].
    exists dt'. split; reflexivity.
Qed.

(** C9. [parse_confirmation_code] does not validate the fields other
    than the timestamp: whenever the text splits on '-' into exactly
    four parts and the third is a well-formed YYYYMMDDHHMMSS timestamp,
    parsing succeeds and the first, second and fourth part are returned
    as they are, whatever they contain.  (The display time zone is the
    default, or one whose offset keeps the time within the calendar.) *)
Theorem C9_parse_verbatim code tc acct tid dt tzarg :
  Py.split "-" code = [tc; acct; Datetime.strftime dt; tid] ->
  Datetime.valid dt = true ->
  zone_in_range dt tzarg ->
  exists conf,
    Account.parse_confirmation_code code tzarg = Ok conf
    /\ transaction_code conf = tc
    /\ account_number conf = acct
    /\ transaction_id conf = tid
    /\ time_utc conf = Datetime.isoformat dt.
Proof.
  intros Hs V Hz.
  destruct (parse_fields code tc acct tid dt tzarg Hs V Hz) as [dt' [_ H]].
  eexists. split; [exact H|]. repeat split.
Qed.

Lemma C9_parse_verbatim_witness :
  exists conf,
    Account.parse_confirmation_code "?-not a number-20261105090807-xyz" TzNone
    = Ok conf
    /\ transaction_code conf = "?"
    /\ account_number conf = "not a number"
    /\ transaction_id conf = "xyz"
    /\ time_utc conf = "2026-11-05T09:08:07".
Proof.
  apply (C9_parse_verbatim "?-not a number-20261105090807-xyz"
           "?" "not a number" "xyz" test_now TzNone);
    [reflexivity|reflexivity|exact I].
Defined.

Lemma tag_no_dash k : Py.contains "-" (tag k) = false.
Proof. destruct k; reflexivity. Qed.

Lemma split_code_text t acct now id :
  Py.contains "-" t = false -> 0 <= acct -> Datetime.valid now = true -> 0 <= id ->
  Py.split "-" (code_text t acct now id)
  = [t; Py.str acct; Datetime.strftime now; Py.str id].
Proof.
  intros Ht Ha V Hi. unfold code_text.
  apply (split_fields "-" t (Py.str acct) (Datetime.strftime now) (Py.str id)).
  - exact Ht.
  - apply str_no_dash, Ha.
  - apply digits_no_dash, strftime_digits, V.
  - apply str_no_dash, Hi.
Qed.

(** C1. Round trip of the confirmation codec: for an account with a
    non-negative number, any of the four kinds, a clock reading that is
    a valid date of the year 1000 or later, and a counter that has not
    gone below zero (it starts at 100 and only grows), the code that
    [generation_confirmation_code] returns parses; the parsed
    [transaction_id] is the decimal text of the id that the call drew
    from the shared counter, and the parsed [transaction_code] is the
    one-character tag of the kind. *)
Theorem C1_round_trip now k st :
  Datetime.valid now = true -> 1000 <= Datetime.year now ->
  0 <= number_of st -> 0 <= counter_of st ->
  exists code conf,
    Account.generation_confirmation_code now (Transaction_Code.name k) st
    = (Ok code, drawn st)
    /\ Itertools.next (counter_of st) = (Ok (counter_of st), counter_of (drawn st))
    /\ Account.parse_confirmation_code code TzNone = Ok conf
    /\ transaction_id conf = Py.str (counter_of st)
    /\ transaction_code conf = tag k
    /\ account_number conf = Py.str (number_of st).
Proof.
  intros V _ Ha Hc.
  pose proof (split_code_text (tag k) (number_of st) now (counter_of st)
                (tag_no_dash k) Ha V Hc) as Hs.
  destruct (parse_fields _ _ _ _ now TzNone Hs V I) as [dt' [_ H]].
  eexists. eexists. split; [apply generation_known|].
  split; [reflexivity|]. split; [exact H|]. repeat split.
Qed.

Lemma C1_round_trip_witness :
  exists code conf,
    Account.generation_confirmation_code test_now "WITHDRAW" test_state
    = (Ok code, drawn test_state)
    /\ Itertools.next 100 = (Ok 100, 101)
    /\ Account.parse_confirmation_code code TzNone = Ok conf
    /\ transaction_id conf = "100"
    /\ transaction_code conf = "W"
    /\ account_number conf = "400".
Proof.
  apply (C1_round_trip test_now Transaction_Code.WITHDRAW test_state);
    [reflexivity|vm_compute; discriminate|vm_compute; discriminate
    |vm_compute; discriminate].
Defined.

(** *** What [strptime] can accept *)

Lemma strptime_raises s e : Datetime.strptime s = Raise e -> e = ValueError.
Proof.
  unfold Datetime.strptime, Datetime.new.
  destruct (Datetime.match_groups Datetime.format_regex s) as [[ms r]|];
    [|congruence].
  destruct ms as [|gY [|gm [|gd [|gH [|gM [|gS [|x ms]]]]]]];
    destruct r; try congruence.
  destruct (Py.int gY), (Py.int gm), (Py.int gd), (Py.int gH), (Py.int gM),
    (Py.int gS); try congruence.
  destruct (Datetime.fields_ok _ _ _ _ _ _); congruence.
Qed.

Lemma length_append s t :
  String.length (s ++ t) = (String.length s + String.length t)%nat.
Proof. induction s as [|c s IH]; simpl; [reflexivity|]. rewrite IH. reflexivity. Qed.

Lemma append_assoc (s t u : string) : (s ++ t) ++ u = s ++ (t ++ u).
Proof. induction s as [|c s IH]; simpl; [reflexivity|]. rewrite IH. reflexivity. Qed.

Lemma append_nil_r (s : string) : s ++ EmptyString = s.
Proof. induction s as [|c s IH]; simpl; [reflexivity|]. rewrite IH. reflexivity. Qed.

Lemma match_alt_inv a : forall s m rest,
  Forall class_ok a ->
  Datetime.match_alt a s = Some (m, rest) ->
  s = m ++ rest
  /\ String.length m = length a
  /\ Py.all_chars digit_or_space m = true.
Proof.
  induction a as [|k a IH]; intros s m rest Hok H; simpl in H.
  - injection H as <- <-. repeat split.
  - destruct s as [|c s]; [discriminate|].
    destruct (Datetime.cmatch k c) eqn:Ek; [|discriminate].
    destruct (Datetime.match_alt a s) as [[m' rest']|] eqn:Em; [|discriminate].
    injection H as <- <-.
    inversion Hok as [|k' a' Hk Ha]; subst.
    destruct (IH _ _ _ Ha Em) as [-> [Hl Hc]].
    repeat split; simpl.
    + rewrite Hl. reflexivity.
    + rewrite (Hk c Ek), Hc. reflexivity.
Qed.

Lemma first_some_inv {A B} (f : A -> option B) l b :
  Datetime.first_some f l = Some b -> exists a, In a l /\ f a = Some b.
Proof.
  induction l as [|a l IH]; simpl; [discriminate|].
  destruct (f a) as [b'|] eqn:E.
  - intros H. injection H as <-. exists a. split; [left; reflexivity|exact E].
  - intros H. destruct (IH H) as [a' [Hin Hf]].
    exists a'. split; [right; exact Hin|exact Hf].
Qed.

Lemma group_bounds g a :
  In a g -> (group_min g <= length a <= group_max g)%nat.
Proof.
  unfold group_min. generalize (group_max g) at 1. intros b Hin. split.
  - induction g as [|a0 g IH]; [contradiction|]. simpl.
    destruct Hin as [->|Hin]; [lia|]. specialize (IH Hin). lia.
  - unfold group_max.
    induction g as [|a0 g IH]; [contradiction|]. simpl.
    destruct Hin as [->|Hin]; [lia|]. specialize (IH Hin). lia.
Qed.

Lemma match_groups_inv gs : forall s ms r,
  Forall (Forall (Forall class_ok)) gs ->
  Datetime.match_groups gs s = Some (ms, r) ->
  exists consumed,
    s = consumed ++ r
    /\ Py.all_chars digit_or_space consumed = true
    /\ (groups_min gs <= String.length consumed <= groups_max gs)%nat.
Proof.
  induction gs as [|g gs IH]; intros s ms r Hok H; simpl in H.
  - injection H as <- <-. exists EmptyString. repeat split; simpl; lia.
  - inversion Hok as [|g' gs' Hg Hgs]; subst.
    apply first_some_inv in H. destruct H as [a [Hin H]].
    destruct (Datetime.match_alt a s) as [[m rest]|] eqn:Ea; [|discriminate].
    destruct (Datetime.match_groups gs rest) as [[ms' r']|] eqn:Eg; [|discriminate].
    injection H as <- <-.
    rewrite Forall_forall in Hg.
    destruct (match_alt_inv a s m rest (Hg a Hin) Ea) as [-> [Hl Hc]].
    destruct (IH rest ms' r' Hgs Eg) as [consumed [-> [Hc' Hb]]].
    exists (m ++ consumed). split; [symmetry; apply append_assoc|].
    split; [rewrite all_chars_app, Hc, Hc'; reflexivity|].
    rewrite length_append, Hl.
    pose proof (group_bounds g a Hin). simpl. lia.
Qed.

Lemma class_ok_Digit : class_ok Datetime.Digit.
Proof.
  intros c H. unfold digit_or_space. rewrite cmatch_Digit in H.
  rewrite H. reflexivity.
Qed.

Lemma class_ok_Range lo hi :
  (48 <= nat_of_ascii lo)%nat -> (nat_of_ascii hi <= 57)%nat ->
  class_ok (Datetime.Range lo hi).
Proof.
  intros Hlo Hhi c H. unfold Datetime.cmatch in H.
  apply andb_true_iff in H. destruct H as [H1 H2].
  apply Nat.leb_le in H1. apply Nat.leb_le in H2.
  unfold digit_or_space, Py.isdecimal.
  replace (48 <=? nat_of_ascii c)%nat with true
    by (symmetry; apply Nat.leb_le; lia).
  replace (nat_of_ascii c <=? 57)%nat with true
    by (symmetry; apply Nat.leb_le; lia).
  reflexivity.
Qed.

Lemma class_ok_Lit a : digit_or_space a = true -> class_ok (Datetime.Lit a).
Proof.
  intros Ha c H. unfold Datetime.cmatch in H.
  apply Ascii.eqb_eq in H. subst c. exact Ha.
Qed.

Lemma format_regex_ok :
  Forall (Forall (Forall class_ok)) Datetime.format_regex.
Proof.
  repeat constructor;
    first [ apply class_ok_Digit
          | apply class_ok_Lit; reflexivity
          | apply class_ok_Range; cbn; lia ].
Qed.

(** Whatever [strptime] accepts has 9 to 14 characters, all of them
    digits or blanks. *)
Lemma strptime_ok_shape s :
  is_ok (Datetime.strptime s) = true ->
  (9 <= String.length s <= 14)%nat
  /\ Py.all_chars digit_or_space s = true.
Proof.
  unfold Datetime.strptime.
  destruct (Datetime.match_groups Datetime.format_regex s) as [[ms r]|] eqn:E;
    [|discriminate].
  destruct (match_groups_inv _ _ _ _ format_regex_ok E) as [consumed [-> [Hc Hb]]].
  intros H. destruct r as [|c r].
  - rewrite append_nil_r. split; [|exact Hc].
    change (groups_min Datetime.format_regex) with 9%nat in Hb.
    change (groups_max Datetime.format_regex) with 14%nat in Hb.
    exact Hb.
  - destruct ms as [|gY [|gm [|gd [|gH [|gM [|gS [|x ms]]]]]]]; discriminate.
Qed.

Lemma parse_bad_timestamp code tc acct ts tid tzarg :
  Py.split "-" code = [tc; acct; ts; tid] ->
  is_ok (Datetime.strptime ts) = false ->
  Account.parse_confirmation_code code tzarg = Raise ValueError.
Proof.
  intros Hs H. unfold Account.parse_confirmation_code. rewrite Hs.
  destruct (Datetime.strptime ts) as [dt|e] eqn:E; [discriminate|].
  rewrite (strptime_raises _ _ E). reflexivity.
Qed.

(** C6 (as the code has it).  [parse_confirmation_code] raises
    ValueError for every text that does not split on '-' into exactly
    four parts, and for every four-part text whose third part
    [strptime] rejects; that includes every third part shorter than 9 or
    longer than 14 characters and every one with a character other than
    a digit or a blank. *)
Theorem C6_parse_errors code tzarg :
  (length (Py.split "-" code) <> 4%nat ->
   Account.parse_confirmation_code code tzarg = Raise ValueError)
  /\ (forall tc acct ts tid,
        Py.split "-" code = [tc; acct; ts; tid] ->
        (is_ok (Datetime.strptime ts) = false ->
         Account.parse_confirmation_code code tzarg = Raise ValueError)
        /\ ((String.length ts < 9)%nat \/ (14 < String.length ts)%nat
            \/ Py.all_chars digit_or_space ts = false ->
            is_ok (Datetime.strptime ts) = false
            /\ Account.parse_confirmation_code code tzarg = Raise ValueError)).
Proof.
  split.
  - intros Hl. unfold Account.parse_confirmation_code.
    destruct (Py.split "-" code) as [|a [|b [|c [|d [|e l]]]]];
      try reflexivity.
    simpl in Hl. congruence.
  - intros tc acct ts tid Hs. split.
    + apply parse_bad_timestamp with (1 := Hs).
    + intros Hbad.
      assert (E : is_ok (Datetime.strptime ts) = false).
      { destruct (is_ok (Datetime.strptime ts)) eqn:E; [|reflexivity].
        destruct (strptime_ok_shape ts E) as [Hlen Hch].
        destruct Hbad as [H|[H|H]]; [lia|lia|congruence]. }
      split; [exact E|]. apply parse_bad_timestamp with (1 := Hs) (2 := E).
Qed.

Lemma C6_parse_errors_witness :
  Account.parse_confirmation_code "W-400-20261105090807" TzNone = Raise ValueError
  /\ Account.parse_confirmation_code "W-400-20261399090807-100" TzNone
     = Raise ValueError
  /\ Account.parse_confirmation_code "W-400-2026-100" TzNone = Raise ValueError
  /\ Account.parse_confirmation_code "W-400-2026110509080700-100" TzNone
     = Raise ValueError
  /\ Account.parse_confirmation_code "W-400-2026110509080x-100" TzNone
     = Raise ValueError.
Proof.
  repeat apply conj.
  - apply (proj1 (C6_parse_errors "W-400-20261105090807" TzNone)).
    vm_compute. discriminate.
  - apply (proj1 (proj2 (C6_parse_errors "W-400-20261399090807-100" TzNone)
                    "W" "400" "20261399090807" "100" eq_refl)).
    reflexivity.
  - apply (proj2 (proj2 (C6_parse_errors "W-400-2026-100" TzNone)
                    "W" "400" "2026" "100" eq_refl)).
    left. vm_compute. lia.
  - apply (proj2 (proj2 (C6_parse_errors "W-400-2026110509080700-100" TzNone)
                    "W" "400" "2026110509080700" "100" eq_refl)).
    right. left. vm_compute. lia.
  - apply (proj2 (proj2 (C6_parse_errors "W-400-2026110509080x-100" TzNone)
                    "W" "400" "2026110509080x" "100" eq_refl)).
    right. right. reflexivity.
Defined.

(** C6, as claimed, fails: a third part of ten digits, and one of
    fourteen characters with a blank in it, are not in the fixed-width
    all-digit format, yet both parse. *)
Lemma C6_counterexample :
  Py.split "-" "D-1-2024111111-5" = ["D"; "1"; "2024111111"; "5"]
  /\ String.length "2024111111" <> 14%nat
  /\ Account.parse_confirmation_code "D-1-2024111111-5" TzNone
     = Ok (mkConfirmation "1" "D" "5" "2024-11-01T01:01:01" "20241101010101 (UTC)")
  /\ Py.split "-" "D-1-202411 5101010-5" = ["D"; "1"; "202411 5101010"; "5"]
  /\ Py.all_chars Py.isdecimal "202411 5101010" = false
  /\ Account.parse_confirmation_code "D-1-202411 5101010-5" TzNone
     = Ok (mkConfirmation "1" "D" "5" "2024-11-05T10:10:10" "20241105101010 (UTC)").
Proof.
  repeat apply conj; try reflexivity. vm_compute. discriminate.
Qed.

(* ================================================================= *)
(** ** Runs *)

Lemma deposit_cases now v st :
  Account.deposit now v st = (Raise ValueError, st)
  \/ exists q,
       Py.as_Real v = Some q /\ (Account.float_0_01 <= q)%Q
       /\ Account.deposit now v st
          = (Ok (code_text "D" (number_of st) now (counter_of st)),
             with_balance (balance_of st + q) (drawn st)).
Proof.
  destruct (Py.as_Real v) as [q|] eqn:Hv.
  - destruct (Qlt_le_dec q Account.float_0_01) as [Hq|Hq].
    + left. unfold Account.deposit, bind, lift.
      rewrite (validate_real_number_low _ _ _ _ Hv Hq). reflexivity.
    + right. exists q. split; [reflexivity|]. split; [exact Hq|].
      unfold Account.deposit, bind at 1, lift.
      rewrite (validate_real_number_ok _ _ _ _ Hv Hq).
      unfold bind at 1.
      rewrite (generation_known now Transaction_Code.DEPOSIT). reflexivity.
  - left. unfold Account.deposit, bind, lift.
    rewrite (validate_real_number_nonreal _ _ _ Hv). reflexivity.
Qed.

Lemma withdraw_cases now v st :
  Account.withdraw now v st = (Raise ValueError, st)
  \/ exists q,
       Py.as_Real v = Some q /\ (Account.float_0_01 <= q)%Q
       /\ (((balance_of st < q)%Q
            /\ Account.withdraw now v st
               = (Ok (code_text "X" (number_of st) now (counter_of st)), drawn st))
           \/ ((q <= balance_of st)%Q
               /\ Account.withdraw now v st
                  = (Ok (code_text "W" (number_of st) now (counter_of st)),
                     with_balance (balance_of st - q) (drawn st)))).
Proof.
  destruct (Py.as_Real v) as [q|] eqn:Hv.
  - destruct (Qlt_le_dec q Account.float_0_01) as [Hq|Hq].
    + left. unfold Account.withdraw, bind, lift.
      rewrite (validate_real_number_low _ _ _ _ Hv Hq). reflexivity.
    + right. exists q. split; [reflexivity|]. split; [exact Hq|].
      destruct (Qlt_le_dec (balance_of st) q) as [Hb|Hb]; [left|right];
        (split; [exact Hb|]);
        unfold Account.withdraw, bind at 1, lift;
        rewrite (validate_real_number_ok _ _ _ _ Hv Hq);
        unfold bind at 1, get;
        [apply Qlt_bool_true in Hb|apply Qlt_bool_false in Hb];
        unfold balance_of, Account.balance in Hb; rewrite Hb.
      * unfold bind.
        rewrite (generation_known now Transaction_Code.REJECTED). reflexivity.
      * unfold bind at 1.
        rewrite (generation_known now Transaction_Code.WITHDRAW). reflexivity.
  - left. unfold Account.withdraw, bind, lift.
    rewrite (validate_real_number_nonreal _ _ _ Hv). reflexivity.
Qed.

Lemma generation_cases now name st :
  Account.generation_confirmation_code now name st = (Raise KeyError, st)
  \/ exists k,
       Account.generation_confirmation_code now name st
       = (Ok (code_text (tag k) (number_of st) now (counter_of st)), drawn st).
Proof.
  destruct (getitem_spec name) as [[k [-> _]]|[_ E]].
  - right. exists k. apply generation_known.
  - left. apply generation_unknown, E.
Qed.

Lemma method_cases {A} i (m : M Account.state A) w :
  (nth_error (Run.accounts w) i = None
   /\ Run.method i m w = (Raise NameError, w))
  \/ exists a,
       nth_error (Run.accounts w) i = Some a
       /\ Run.method i m w = method_on i m w a.
Proof.
  unfold Run.method, method_on.
  destruct (nth_error (Run.accounts w) i) as [a|].
  - right. exists a. split; [reflexivity|].
    destruct (m _) as [r st]. reflexivity.
  - left. split; reflexivity.
Qed.

(** *** The ids handed out *)

Lemma code_text_last t acct now id :
  code_text t acct now id
  = (t ++ "-" ++ Py.str acct ++ "-" ++ Datetime.strftime now)
    ++ String "-" (Py.str id).
Proof.
  unfold code_text. rewrite !append_assoc. reflexivity.
Qed.

Lemma issued_id_code t acct now id :
  0 <= id -> Run.issued_id (Ok (Run.RStr (code_text t acct now id))) = Some id.
Proof.
  intros Hid. unfold Run.issued_id.
  rewrite code_text_last, last_split_app_sep by (apply str_no_dash, Hid).
  apply int_str, Hid.
Qed.

Lemma bind_ret_method {A} i (m : M Account.state A) (f : A -> Run.returned) w :
  bind (Run.method i m) (fun s => ret (f s)) w
  = (match fst (Run.method i m w) with
     | Ok a => Ok (f a)
     | Raise e => Raise e
     end, snd (Run.method i m w)).
Proof.
  unfold bind, ret. destruct (Run.method i m w) as [[a|e] w']; reflexivity.
Qed.

(** A call hands out the current value of the counter and advances it
    by one, or hands out nothing and leaves it alone. *)
Lemma exec_counter now c w :
  0 <= world_counter w ->
  (Run.issued_id (fst (Run.exec now c w)) = Some (world_counter w)
   /\ world_counter (snd (Run.exec now c w)) = world_counter w + 1)
  \/ (Run.issued_id (fst (Run.exec now c w)) = None
      /\ world_counter (snd (Run.exec now c w)) = world_counter w).
Proof.
  intros Hc.
  destruct c as [n fn ln b tz|i v|i v|i|v|i|i k]; unfold Run.exec.
  - right. destruct (Account.__init__ n fn ln b tz); split; reflexivity.
  - rewrite bind_ret_method.
    destruct (method_cases i (Account.deposit now v) w) as [[_ ->]|[a [_ ->]]];
      [right; split; reflexivity|unfold method_on].
    destruct (deposit_cases now v (Account.mkstate (Run.cls w) a))
      as [->|[q [_ [_ ->]]]]; cbn [fst snd].
    + right. split; reflexivity.
    + left. split; [apply issued_id_code; exact Hc|reflexivity].
  - rewrite bind_ret_method.
    destruct (method_cases i (Account.withdraw now v) w) as [[_ ->]|[a [_ ->]]];
      [right; split; reflexivity|unfold method_on].
    destruct (withdraw_cases now v (Account.mkstate (Run.cls w) a))
      as [->|[q [_ [_ [[_ ->]|[_ ->]]]]]]; cbn [fst snd].
    + right. split; reflexivity.
    + left. split; [apply issued_id_code; exact Hc|reflexivity].
    + left. split; [apply issued_id_code; exact Hc|reflexivity].
  - rewrite bind_ret_method.
    destruct (method_cases i (Account.pay_interest now) w) as [[_ ->]|[a [_ ->]]];
      [right; split; reflexivity|unfold method_on].
    rewrite pay_interest_eq. cbn [fst snd].
    left. split; [apply issued_id_code; exact Hc|reflexivity].
  - right. unfold bind, Run.classmethod, Account.set_interest_rate.
    destruct (Py.as_Real v) as [q|]; [|split; reflexivity].
    destruct (Py.Qlt_bool q 0); split; reflexivity.
  - rewrite bind_ret_method.
    destruct (method_cases i Account.make_transaction_codes w)
      as [[_ ->]|[a [_ ->]]];
      [right; split; reflexivity|unfold method_on].
    left. split; reflexivity.
  - rewrite bind_ret_method.
    destruct (method_cases i (Account.generation_confirmation_code now k) w)
      as [[_ ->]|[a [_ ->]]];
      [right; split; reflexivity|unfold method_on].
    destruct (generation_cases now k (Account.mkstate (Run.cls w) a))
      as [->|[kd ->]]; cbn [fst snd].
    + right. split; reflexivity.
    + left. split; [apply issued_id_code; exact Hc|reflexivity].
Qed.

Lemma run_cons now c cs w :
  Run.run ((now, c) :: cs) w
  = (fst (Run.exec now c w) :: fst (Run.run cs (snd (Run.exec now c w))),
     snd (Run.run cs (snd (Run.exec now c w)))).
Proof.
  simpl. destruct (Run.exec now c w) as [r w']. cbn [fst snd].
  destruct (Run.run cs w') as [rs w'']. reflexivity.
Qed.


Lemma Zrange_from_bounds n : forall lo z,
  In z (Zrange_from lo n) -> lo <= z < lo + Z.of_nat n.
Proof.
  induction n as [|n IH]; intros lo z H; [contradiction|].
  simpl in H. destruct H as [<-|H]; [lia|]. apply IH in H. lia.
Qed.

Lemma Zrange_from_sorted n : forall lo, StronglySorted Z.lt (Zrange_from lo n).
Proof.
  induction n as [|n IH]; intros lo; simpl; constructor.
  - apply IH.
  - apply Forall_forall. intros z Hz. apply Zrange_from_bounds in Hz. lia.
Qed.

Lemma sorted_NoDup (l : list Z) : StronglySorted Z.lt l -> NoDup l.
Proof.
  induction 1 as [|x l Hs IH Hx]; constructor; [|exact IH].
  intros Hin. rewrite Forall_forall in Hx. specialize (Hx x Hin). lia.
Qed.



(** *** Balances *)

Lemma float_0_01_pos : (0 < Account.float_0_01)%Q.
Proof. reflexivity. Qed.


Lemma Forall_update {A} (P : A -> Prop) i x l :
  Forall P l -> P x -> Forall P (Run.update i x l).
Proof.
  intros Hl Hx. revert i. induction Hl as [|y l Hy Hl IH]; intros i.
  - destruct i; constructor.
  - destruct i as [|i]; simpl; constructor; auto.
Qed.

Lemma interest_nonneg b r :
  (0 <= b)%Q -> (0 <= r)%Q -> (0 <= b + b * r / (100 # 1))%Q.
Proof.
  intros Hb Hr. pose proof (Qmult_le_0_compat _ _ Hb Hr) as Hx.
  assert (H : (0 <= b * r * / (100 # 1))%Q).
  { apply Qmult_le_0_compat; [exact Hx|]. discriminate. }
  unfold Qdiv. lra.
Qed.






(* ================================================================= *)
(** ** The unit tests and the examples of the specification *)

Example strptime_full_width :
  Datetime.strptime "20241231235959"
  = Ok (Datetime.mkdatetime 2024 12 31 23 59 59).
Proof. reflexivity. Qed.

Example strptime_lenient :
  Datetime.strptime "2024111111" = Ok (Datetime.mkdatetime 2024 11 1 1 1 1)
  /\ Datetime.strptime "202411 5101010"
     = Ok (Datetime.mkdatetime 2024 11 5 10 10 10)
  /\ Datetime.strptime "2024123123595"
     = Ok (Datetime.mkdatetime 2024 12 31 23 59 5)
  /\ Datetime.strptime "00011231235959"
     = Ok (Datetime.mkdatetime 1 12 31 23 59 59).
Proof. repeat split; reflexivity. Qed.

Example strptime_rejects :
  Datetime.strptime "20241231235960" = Raise ValueError
  /\ Datetime.strptime "202412312359599" = Raise ValueError
  /\ Datetime.strptime "20240230101010" = Raise ValueError
  /\ Datetime.strptime "2024-12-31" = Raise ValueError.
Proof. repeat split; reflexivity. Qed.

Example datetime_add :
  Datetime.add (Datetime.mkdatetime 9999 12 31 23 59 59) 50400
  = Raise OverflowError
  /\ Datetime.add (Datetime.mkdatetime 2024 2 28 23 0 0) 12600
     = Ok (Datetime.mkdatetime 2024 2 29 2 30 0)
  /\ Datetime.add (Datetime.mkdatetime 2023 1 1 0 0 0) (-60)
     = Ok (Datetime.mkdatetime 2022 12 31 23 59 0).
Proof. repeat split; reflexivity. Qed.

(** [test_create_timezone] *)
Example test_create_timezone :
  TimeZone.__init__ (Some "ABC") (Py.VInt (-1)) (Py.VInt (-31))
  = Ok (TimeZone.mk "ABC" (-1) (-31) (-5460)).
Proof. reflexivity. Qed.

(** A time zone whose hour offset no [timedelta] can hold. *)
Example timezone_overflow :
  TimeZone.__init__ (Some "X") (Py.VInt 24000000000) (Py.VInt 0)
  = Raise OverflowError.
Proof. reflexivity. Qed.

(** [test_create_account], [test_create_account_blank_first_name],
    [test_create_account_negative_balance] *)
Example test_create_account :
  Account.__init__ (Py.VInt 400) (Some "Mohammad") (Some "Jalalnia")
    (Py.VReal (100 # 1)) (TzObj test_tz) = Ok test_account
  /\ Account.__init__ (Py.VInt 400) (Some "") (Some "Jalalnia")
       (Py.VReal (100 # 1)) (TzObj test_tz) = Raise ValueError
  /\ Account.__init__ (Py.VInt 400) (Some "Mohammad") (Some "Jalalnia")
       (Py.VReal (-100 # 1)) (TzObj test_tz) = Raise ValueError
  /\ Account.__init__ (Py.VInt 400) (Some "Mohammad") (Some "Jalalnia")
       (Py.VInt 0) TzNone = Raise ValueError.
Proof. repeat split; reflexivity. Qed.

(** [test_account_withdraw_ok] then [test_account_withdraw_overdraft] on
    the same account, followed by calls that raise: the ids are handed
    out in order and the failed calls draw none. *)
Example end_to_end :
  let cs :=
    [(test_now, Run.New (Py.VInt 400) (Some "Mohammad") (Some "Jalalnia")
                  (Py.VReal (100 # 1)) (TzObj test_tz));
     (test_now, Run.Withdraw 0 (Py.VInt 20));
     (test_now, Run.Withdraw 0 (Py.VInt 200));
     (test_now, Run.Deposit 0 (Py.VInt 0));
     (test_now, Run.GenerationConfirmationCode 0 "TRANSFER");
     (test_now, Run.PayInterest 0);
     (test_now, Run.MakeTransactionCodes 0)] in
  fst (Run.run cs Run.world_init)
  = [Ok (Run.RAccount 0);
     Ok (Run.RStr "W-400-20261105090807-100");
     Ok (Run.RStr "X-400-20261105090807-101");
     Raise ValueError;
     Raise KeyError;
     Ok (Run.RStr "I-400-20261105090807-102");
     Ok (Run.RInt 103)]
  /\ map (fun a => Qred (Account.balance a))
       (Run.accounts (snd (Run.run cs Run.world_init)))
     = [(84 # 1)%Q]
  /\ Run.issued_ids (fst (Run.run cs Run.world_init)) = [100; 101; 102; 103].
Proof. repeat split; vm_compute; reflexivity. Qed.

(* ================================================================= *)
(** * Further properties of the module *)

(** ** Time zones: what a constructed zone satisfies *)

Lemma rstrip_cons_nonspace c s :
  Py.isspace c = false -> exists t, Py.rstrip (String c s) = String c t.
Proof.
  intros Hc. simpl. destruct (Py.rstrip s) as [|d r].
  - rewrite Hc. exists EmptyString. reflexivity.
  - exists (String d r). reflexivity.
Qed.

Lemma rstrip_idempotent s : Py.rstrip (Py.rstrip s) = Py.rstrip s.
Proof.
  induction s as [|c s IH]; [reflexivity|].
  simpl. destruct (Py.rstrip s) as [|d r] eqn:E.
  - destruct (Py.isspace c) eqn:Hc; [reflexivity|].
    simpl. rewrite Hc. reflexivity.
  - change (Py.rstrip (String c (String d r)))
      with (match Py.rstrip (String d r) with
            | EmptyString =>
                if Py.isspace c then EmptyString else String c EmptyString
            | String a t => String c (String a t)
            end).
    rewrite IH. reflexivity.
Qed.

Lemma lstrip_shape s :
  Py.lstrip s = EmptyString
  \/ exists c t, Py.lstrip s = String c t /\ Py.isspace c = false.
Proof.
  induction s as [|c s IH]; [left; reflexivity|].
  simpl. destruct (Py.isspace c) eqn:Hc; [exact IH|].
  right. exists c, s. split; [reflexivity|exact Hc].
Qed.

(** [s.strip().strip() == s.strip()] *)
Lemma strip_idempotent s : Py.strip (Py.strip s) = Py.strip s.
Proof.
  unfold Py.strip.
  assert (H : Py.lstrip (Py.rstrip (Py.lstrip s)) = Py.rstrip (Py.lstrip s)).
  { destruct (lstrip_shape s) as [->|[c [t [-> Hc]]]]; [reflexivity|].
    destruct (rstrip_cons_nonspace c t Hc) as [t' ->].
    simpl. rewrite Hc. reflexivity. }
  rewrite H. apply rstrip_idempotent.
Qed.

Lemma as_Integral_inv v z : Py.as_Integral v = Some z -> v = Py.VInt z.
Proof. destruct v; simpl; congruence. Qed.

Lemma timezone_constructed name oh om tz :
  TimeZone.__init__ name oh om = Ok tz ->
  (exists n, name = Some n /\ TimeZone.name tz = Py.strip n)
  /\ TimeZone.name tz <> EmptyString
  /\ Py.strip (TimeZone.name tz) = TimeZone.name tz
  /\ oh = Py.VInt (TimeZone._offset_hours tz)
  /\ om = Py.VInt (TimeZone._offset_minutes tz)
  /\ -59 <= TimeZone._offset_minutes tz <= 59
  /\ -12 <= TimeZone._offset_hours tz <= 14
  /\ TimeZone.offset tz
     = TimeZone._offset_hours tz * 3600 + TimeZone._offset_minutes tz * 60
  /\ -12 * 3600 <= TimeZone.offset tz <= 14 * 3600.
Proof.
  intros H. destruct name as [n|]; [|discriminate].
  assert (Hn : Py.strip n <> EmptyString).
  { intros E. unfold TimeZone.__init__ in H. rewrite E in H. discriminate. }
  destruct (Py.as_Integral oh) as [h|] eqn:Eh.
  2:{ unfold TimeZone.__init__ in H. rewrite (strip_nonempty_length _ Hn), Eh in H.
      discriminate. }
  destruct (Py.as_Integral om) as [m|] eqn:Em.
  2:{ unfold TimeZone.__init__ in H.
      rewrite (strip_nonempty_length _ Hn), Eh, Em in H. discriminate. }
  apply as_Integral_inv in Eh. apply as_Integral_inv in Em. subst oh om.
  rewrite TimeZone_init_int, (strip_nonempty_length _ Hn) in H.
  destruct ((m <? -59) || (m >? 59)) eqn:E1; [discriminate|].
  destruct (Z.abs ((h * 3600 + m * 60) / 86400) >? 999999999); [discriminate|].
  destruct ((h * 3600 + m * 60 <? -43200) || (h * 3600 + m * 60 >? 50400)) eqn:E2;
    [discriminate|].
  injection H as <-. unfold TimeZone.name, TimeZone.offset. simpl.
  repeat apply conj; try reflexivity; try lia.
  - exists n. split; reflexivity.
  - exact Hn.
  - apply strip_idempotent.
Qed.


(** X1. Every [TimeZone] that the constructor returns has a name that is
    the stripped argument, is not empty and has no white space at
    either end; its offsets are the integers passed, with minutes in
    [-59, 59] and hours in [-12, 14]; and its [offset] is the duration
    hours:minutes, between -12:00 and +14:00. *)
Theorem X1_timezone_invariant name oh om tz :
  TimeZone.__init__ name oh om = Ok tz ->
  (exists n, name = Some n /\ TimeZone.name tz = Py.strip n)
  /\ TimeZone.name tz <> EmptyString
  /\ Py.strip (TimeZone.name tz) = TimeZone.name tz
  /\ oh = Py.VInt (TimeZone._offset_hours tz)
  /\ om = Py.VInt (TimeZone._offset_minutes tz)
  /\ -59 <= TimeZone._offset_minutes tz <= 59
  /\ -12 <= TimeZone._offset_hours tz <= 14
  /\ TimeZone.offset tz
     = TimeZone._offset_hours tz * 3600 + TimeZone._offset_minutes tz * 60
  /\ -12 * 3600 <= TimeZone.offset tz <= 14 * 3600.
Proof. apply timezone_constructed. Qed.

Lemma X1_timezone_invariant_witness :
  (exists n, Some "  IR " = Some n /\ "IR" = Py.strip n)
  /\ "IR" <> EmptyString
  /\ Py.strip "IR" = "IR"
  /\ Py.VInt 3 = Py.VInt 3
  /\ Py.VInt 30 = Py.VInt 30
  /\ -59 <= 30 <= 59
  /\ -12 <= 3 <= 14
  /\ 12600 = 3 * 3600 + 30 * 60
  /\ -12 * 3600 <= 12600 <= 14 * 3600.
Proof.
  apply (X1_timezone_invariant (Some "  IR ") (Py.VInt 3) (Py.VInt 30)
           (TimeZone.mk "IR" 3 30 12600)).
  reflexivity.
Defined.

(** ** Time zones: equality *)

Lemma TimeZone_eq_iff a b :
  TimeZone.__eq__ a b = true
  <-> TimeZone.name a = TimeZone.name b
      /\ TimeZone._offset_hours a = TimeZone._offset_hours b
      /\ TimeZone._offset_minutes a = TimeZone._offset_minutes b.
Proof.
  unfold TimeZone.__eq__.
  rewrite !andb_true_iff, String.eqb_eq, !Z.eqb_eq. tauto.
Qed.

(** X2. [__eq__] on time zones is reflexive, symmetric and transitive;
    two zones that the constructor returned are equal exactly when they
    are the same value (so equal zones have the same offset), and the
    white space around the name passed to the constructor plays no
    part. *)
Theorem X2_timezone_eq :
  (forall a, TimeZone.__eq__ a a = true)
  /\ (forall a b, TimeZone.__eq__ a b = TimeZone.__eq__ b a)
  /\ (forall a b c,
        TimeZone.__eq__ a b = true -> TimeZone.__eq__ b c = true ->
        TimeZone.__eq__ a c = true)
  /\ (forall n1 h1 m1 n2 h2 m2 a b,
        TimeZone.__init__ n1 h1 m1 = Ok a ->
        TimeZone.__init__ n2 h2 m2 = Ok b ->
        (TimeZone.__eq__ a b = true <-> a = b))
  /\ (forall n1 n2 h m a b,
        Py.strip n1 = Py.strip n2 ->
        TimeZone.__init__ (Some n1) h m = Ok a ->
        TimeZone.__init__ (Some n2) h m = Ok b ->
        TimeZone.__eq__ a b = true).
Proof.
  repeat apply conj.
  - intros a. apply TimeZone_eq_iff. repeat split.
  - intros a b. destruct (TimeZone.__eq__ a b) eqn:E; symmetry.
    + apply TimeZone_eq_iff in E. apply TimeZone_eq_iff.
      destruct E as [E1 [E2 E3]]. repeat split; congruence.
    + destruct (TimeZone.__eq__ b a) eqn:E'; [|reflexivity].
      apply TimeZone_eq_iff in E'.
      assert (TimeZone.__eq__ a b = true); [|congruence].
      apply TimeZone_eq_iff. destruct E' as [E1 [E2 E3]].
      repeat split; congruence.
  - intros a b c Hab Hbc. apply TimeZone_eq_iff in Hab, Hbc.
    apply TimeZone_eq_iff. destruct Hab as [? [? ?]], Hbc as [? [? ?]].
    repeat split; congruence.
  - intros n1 h1 m1 n2 h2 m2 a b Ha Hb. split.
    + intros E. apply TimeZone_eq_iff in E. destruct E as [E1 [E2 E3]].
      apply timezone_constructed in Ha. apply timezone_constructed in Hb.
      destruct Ha as [_ [_ [_ [_ [_ [_ [_ [Oa _]]]]]]]].
      destruct Hb as [_ [_ [_ [_ [_ [_ [_ [Ob _]]]]]]]].
      destruct a as [na ha ma oa], b as [nb hb mb ob].
      unfold TimeZone.name, TimeZone.offset in *. simpl in *.
      subst. reflexivity.
    + intros ->. apply TimeZone_eq_iff. repeat split.
  - intros n1 n2 h m a b Hn Ha Hb. apply TimeZone_eq_iff.
    apply timezone_constructed in Ha. apply timezone_constructed in Hb.
    destruct Ha as [[n [En Na]] [_ [_ [Ha1 [Ha2 _]]]]].
    destruct Hb as [[n' [En' Nb]] [_ [_ [Hb1 [Hb2 _]]]]].
    injection En as <-. injection En' as <-.
    rewrite Na, Nb. repeat split; [exact Hn| |].
    + rewrite Ha1 in Hb1. injection Hb1 as ->. reflexivity.
    + rewrite Ha2 in Hb2. injection Hb2 as ->. reflexivity.
Qed.

Lemma X2_timezone_eq_witness :
  TimeZone.__eq__ (TimeZone.mk "IR" 3 30 12600) (TimeZone.mk "IR" 3 30 12600) = true
  /\ (TimeZone.__eq__ (TimeZone.mk "ABC" (-1) (-30) (-5400))
                      (TimeZone.mk "ABC" 1 (-30) 1800) = true
      <-> TimeZone.mk "ABC" (-1) (-30) (-5400) = TimeZone.mk "ABC" 1 (-30) 1800)
  /\ TimeZone.__eq__ (TimeZone.mk "IR" 3 30 12600) (TimeZone.mk "IR" 3 30 12600) = true.
Proof.
  destruct X2_timezone_eq as [_ [_ [H3 [H4 H5]]]].
  split; [|split].
  - apply (H3 _ (TimeZone.mk "IR" 3 30 12600)); reflexivity.
  - apply (H4 (Some "ABC") (Py.VInt (-1)) (Py.VInt (-30))
              (Some "ABC") (Py.VInt 1) (Py.VInt (-30))
              (TimeZone.mk "ABC" (-1) (-30) (-5400))
              (TimeZone.mk "ABC" 1 (-30) 1800)); reflexivity.
  - apply (H5 " IR" "IR  " (Py.VInt 3) (Py.VInt 30)
              (TimeZone.mk "IR" 3 30 12600) (TimeZone.mk "IR" 3 30 12600));
      reflexivity.
Defined.

(* ================================================================= *)
(** ** Constructing an account *)

Lemma validate_name_spec v title :
  match v with
  | None => Account.validate_and_set_name v title = Raise ValueError
  | Some s =>
      (Py.strip s = EmptyString
       /\ Account.validate_and_set_name v title = Raise ValueError)
      \/ (nonblank s /\ Account.validate_and_set_name v title = Ok s)
  end.
Proof.
  destruct v as [s|]; [|reflexivity]. unfold Account.validate_and_set_name.
  destruct (String.length (Py.strip s) =? 0)%nat eqn:E.
  - left. split; [apply strip_empty_length; exact E|reflexivity].
  - right. split; [|reflexivity]. intros H.
    apply strip_empty_length in H. congruence.
Qed.

Lemma account_init_cases n fn ln b tz :
  Account.__init__ n fn ln b tz = Raise ValueError
  \/ exists z f l q,
       n = Py.VInt z /\ 0 <= z
       /\ fn = Some f /\ nonblank f
       /\ ln = Some l /\ nonblank l
       /\ Py.as_Real b = Some q /\ (Account.float_0_01 <= q)%Q
       /\ (tz = TzNone \/ exists t, tz = TzObj t)
       /\ Account.__init__ n fn ln b tz = Ok (Account.mk z f l q (display_zone tz)).
Proof.
  unfold Account.__init__.
  destruct (Py.as_Integral n) as [z|] eqn:En; [|left; reflexivity].
  apply as_Integral_inv in En. subst n.
  destruct (Z.ltb_spec z 0) as [Hz|Hz]; [left; reflexivity|].
  pose proof (validate_name_spec fn "first_name") as Hf.
  destruct fn as [f|]; [|rewrite Hf; left; reflexivity].
  destruct Hf as [[_ ->]|[Hf ->]]; [left; reflexivity|].
  pose proof (validate_name_spec ln "last_name") as Hl.
  destruct ln as [l|]; [|rewrite Hl; left; reflexivity].
  destruct Hl as [[_ ->]|[Hl ->]]; [left; reflexivity|].
  pose proof (validate_real_number_spec b "balance" Account.float_0_01) as Hb.
  destruct (Py.as_Real b) as [q|] eqn:Eb; [|rewrite Hb; left; reflexivity].
  destruct Hb as [[_ ->]|[Hq ->]]; [left; reflexivity|].
  destruct tz as [|t|v]; [| |left; reflexivity].
  - right. exists z, f, l, q. repeat split; try assumption; try reflexivity.
    left. reflexivity.
  - right. exists z, f, l, q. repeat split; try assumption; try reflexivity.
    right. exists t. reflexivity.
Qed.

Lemma validate_name_ok s title :
  nonblank s -> Account.validate_and_set_name (Some s) title = Ok s.
Proof.
  intros H. pose proof (validate_name_spec (Some s) title) as [[E _]|[_ E]];
    [contradiction|exact E].
Qed.




(** X4. An initial balance that is not a real number or is below 0.01
    makes the constructor raise ValueError whatever the other arguments
    are; the default initial balance 0 is such a value, so an account
    cannot be constructed without passing a balance. *)
Theorem X4_initial_balance_required n fn ln tz :
  (forall b,
     (forall q, Py.as_Real b = Some q -> (q < Account.float_0_01)%Q) ->
     Account.__init__ n fn ln b tz = Raise ValueError)
  /\ Account.__init__ n fn ln (Py.VInt 0) tz = Raise ValueError.
Proof.
  assert (H : forall b,
             (forall q, Py.as_Real b = Some q -> (q < Account.float_0_01)%Q) ->
             Account.__init__ n fn ln b tz = Raise ValueError).
  { intros b Hb.
    destruct (account_init_cases n fn ln b tz)
      as [E|[z [f [l [q [_ [_ [_ [_ [_ [_ [Eb [Hq _]]]]]]]]]]]]]; [exact E|].
    specialize (Hb q Eb). exfalso. exact (Qlt_not_le _ _ Hb Hq). }
  split; [exact H|]. apply H. intros q E. injection E as <-. reflexivity.
Qed.

Lemma X4_initial_balance_required_witness :
  Account.__init__ (Py.VInt 400) (Some "Mohammad") (Some "Jalalnia")
    (Py.VReal (-100 # 1)) (TzObj test_tz) = Raise ValueError.
Proof.
  apply (proj1 (X4_initial_balance_required (Py.VInt 400) (Some "Mohammad")
                  (Some "Jalalnia") (TzObj test_tz))).
  intros q E. injection E as <-. reflexivity.
Defined.

(* ================================================================= *)
(** ** What the calls of a client program keep *)

Lemma snd_bind_ret {S A B} (m : M S A) (f : A -> B) w :
  snd (bind m (fun x => ret (f x)) w) = snd (m w).
Proof. unfold bind, ret. destruct (m w) as [[a|e] w']; reflexivity. Qed.

Lemma nth_error_update {A} i (x : A) l : forall j,
  nth_error (Run.update i x l) j
  = if (j =? i)%nat
    then match nth_error l j with Some _ => Some x | None => None end
    else nth_error l j.
Proof.
  revert i. induction l as [|y l IH]; intros i j.
  - destruct i, j; simpl; try reflexivity; destruct (j =? i)%nat; reflexivity.
  - destruct i as [|i], j as [|j]; simpl; try reflexivity. apply IH.
Qed.

Lemma method_snd {A} i (m : M Account.state A) w :
  snd (Run.method i m w)
  = match nth_error (Run.accounts w) i with
    | None => w
    | Some a =>
        let st := snd (m (Account.mkstate (Run.cls w) a)) in
        Run.mkworld (Account.cls st) (Run.update i (Account.self st) (Run.accounts w))
    end.
Proof.
  unfold Run.method. destruct (nth_error (Run.accounts w) i) as [a|]; [|reflexivity].
  destruct (m _) as [r st]. reflexivity.
Qed.

Lemma method_world {A} i (m : M Account.state A) w :
  keeps m ->
  world_rate (snd (Run.method i m w)) = world_rate w
  /\ ((0 <= world_rate w)%Q -> Forall account_ok (Run.accounts w) ->
      Forall account_ok (Run.accounts (snd (Run.method i m w))))
  /\ (forall j a,
        nth_error (Run.accounts w) j = Some a ->
        exists a',
          nth_error (Run.accounts (snd (Run.method i m w))) j = Some a'
          /\ Account.account_number a' = Account.account_number a
          /\ (i <> j -> a' = a)).
Proof.
  intros Hm. rewrite method_snd.
  destruct (nth_error (Run.accounts w) i) as [ai|] eqn:Ei.
  - destruct (Hm (Account.mkstate (Run.cls w) ai)) as [Hn [Hr Hk]].
    cbn zeta. cbn [Run.accounts Run.cls]. repeat apply conj.
    + exact Hr.
    + intros Hrate Hall. apply Forall_update; [exact Hall|].
      apply Hk; [exact Hrate|].
      rewrite Forall_forall in Hall. apply Hall.
      apply nth_error_In with (n := i). exact Ei.
    + intros j a Hj. rewrite nth_error_update, Hj.
      destruct (Nat.eqb_spec j i) as [->|Hne].
      * rewrite Ei in Hj. injection Hj as <-.
        eexists. split; [reflexivity|]. split; [exact Hn|]. congruence.
      * exists a. split; [reflexivity|]. split; reflexivity.
  - repeat apply conj; try reflexivity; try (intros; assumption).
    intros j a Hj. exists a. split; [exact Hj|]. split; reflexivity.
Qed.

Lemma keeps_with_balance st b :
  ((0 <= rate_of st)%Q -> (0 <= balance_of st)%Q -> (0 <= b)%Q) ->
  number_of (with_balance b (drawn st)) = number_of st
  /\ rate_of (with_balance b (drawn st)) = rate_of st
  /\ ((0 <= rate_of st)%Q -> account_ok (Account.self st) ->
      account_ok (Account.self (with_balance b (drawn st)))).
Proof.
  intros Hb. split; [reflexivity|]. split; [reflexivity|].
  intros Hr [Hn [Hf [Hl Hbal]]].
  split; [exact Hn|]. split; [exact Hf|]. split; [exact Hl|].
  apply Hb; assumption.
Qed.

Lemma keeps_same st st' :
  Account.self st' = Account.self st -> rate_of st' = rate_of st ->
  number_of st' = number_of st
  /\ rate_of st' = rate_of st
  /\ ((0 <= rate_of st)%Q -> account_ok (Account.self st) ->
      account_ok (Account.self st')).
Proof.
  intros Hs Hr. unfold number_of. rewrite Hs.
  split; [reflexivity|]. split; [exact Hr|]. intros _ H. exact H.
Qed.

Lemma keeps_deposit now v : keeps (Account.deposit now v).
Proof.
  intros st. destruct (deposit_cases now v st) as [->|[q [_ [Hq ->]]]]; cbn [snd].
  - apply keeps_same; reflexivity.
  - apply keeps_with_balance.
    intros _ Hb. pose proof float_0_01_pos. lra.
Qed.

Lemma keeps_withdraw now v : keeps (Account.withdraw now v).
Proof.
  intros st.
  destruct (withdraw_cases now v st) as [->|[q [_ [Hq [[_ ->]|[Hb ->]]]]]];
    cbn [snd].
  - apply keeps_same; reflexivity.
  - apply keeps_same; reflexivity.
  - apply keeps_with_balance. intros _ _. lra.
Qed.

Lemma keeps_pay_interest now : keeps (Account.pay_interest now).
Proof.
  intros st. rewrite pay_interest_eq. cbn [snd].
  apply keeps_with_balance. intros Hr Hb.
  apply interest_nonneg; assumption.
Qed.

Lemma keeps_make_transaction_codes : keeps Account.make_transaction_codes.
Proof. intros st. apply keeps_same; reflexivity. Qed.

Lemma keeps_generation now k : keeps (Account.generation_confirmation_code now k).
Proof.
  intros st. destruct (generation_cases now k st) as [->|[kd ->]]; cbn [snd];
    apply keeps_same; reflexivity.
Qed.

Lemma keeps_set_first_name v : keeps (Account.set_first_name v).
Proof.
  intros st. unfold Account.set_first_name.
  pose proof (validate_name_spec v "first_name") as H.
  destruct v as [s|]; [destruct H as [[_ ->]|[Hs ->]]|rewrite H]; cbn [snd];
    try (apply keeps_same; reflexivity).
  split; [reflexivity|]. split; [reflexivity|].
  intros _ [Hn [Hf [Hl Hbal]]]. repeat split; assumption.
Qed.

Lemma keeps_set_last_name v : keeps (Account.set_last_name v).
Proof.
  intros st. unfold Account.set_last_name.
  pose proof (validate_name_spec v "last_name") as H.
  destruct v as [s|]; [destruct H as [[_ ->]|[Hs ->]]|rewrite H]; cbn [snd];
    try (apply keeps_same; reflexivity).
  split; [reflexivity|]. split; [reflexivity|].
  intros _ [Hn [Hf [Hl Hbal]]]. repeat split; assumption.
Qed.

Lemma keeps_assign_timezone v : keeps (Account.assign_timezone v).
Proof.
  intros st. unfold Account.assign_timezone.
  destruct v as [|tz|x]; cbn [Account.set_timezone snd];
    try (apply keeps_same; reflexivity).
  split; [reflexivity|]. split; [reflexivity|].
  intros _ [Hn [Hf [Hl Hbal]]]. repeat split; assumption.
Qed.

Lemma init_account_ok n fn ln b tz a :
  Account.__init__ n fn ln b tz = Ok a -> account_ok a.
Proof.
  intros H.
  destruct (account_init_cases n fn ln b tz)
    as [E|[z [f [l [q [_ [Hz [_ [Hf [_ [Hl [_ [Hq [_ E]]]]]]]]]]]]]]; [congruence|].
  rewrite E in H. injection H as <-.
  repeat split; try assumption. cbn. pose proof float_0_01_pos. lra.
Qed.

Lemma client_method_world {A} i (m : M Account.state A) (f : A -> Run.returned) w :
  keeps m ->
  let w' := snd (bind (Run.method i m) (fun x => ret (f x)) w) in
  ((0 <= world_rate w)%Q -> Forall account_ok (Run.accounts w) ->
   (0 <= world_rate w')%Q /\ Forall account_ok (Run.accounts w'))
  /\ (forall j a,
        nth_error (Run.accounts w) j = Some a ->
        exists a',
          nth_error (Run.accounts w') j = Some a'
          /\ Account.account_number a' = Account.account_number a
          /\ (Some i <> Some j -> a' = a)).
Proof.
  intros Hm w'. subst w'. rewrite snd_bind_ret.
  destruct (method_world i m w Hm) as [Hr [Hall Hnth]]. split.
  - intros H0 H1. rewrite Hr. split; [exact H0|]. apply Hall; assumption.
  - intros j a Hj. destruct (Hnth j a Hj) as [a' [H1 [H2 H3]]].
    exists a'. split; [exact H1|]. split; [exact H2|].
    intros Hne. apply H3. congruence.
Qed.

(** One call of a client program. *)
Lemma client_exec_world now c w :
  ((0 <= world_rate w)%Q -> Forall account_ok (Run.accounts w) ->
   (0 <= world_rate (snd (Client.exec now c w)))%Q
   /\ Forall account_ok (Run.accounts (snd (Client.exec now c w))))
  /\ (forall j a,
        nth_error (Run.accounts w) j = Some a ->
        exists a',
          nth_error (Run.accounts (snd (Client.exec now c w))) j = Some a'
          /\ Account.account_number a' = Account.account_number a
          /\ (target c <> Some j -> a' = a)).
Proof.
  destruct c as [[n fn ln b tz|i v|i v|i|v|i|i k]|i v|i v|i v];
    unfold Client.exec, Run.exec, target.
  - destruct (Account.__init__ n fn ln b tz) as [a0|e] eqn:E; cbn [snd].
    + split.
      * intros Hr Hall. split; [exact Hr|]. cbn [Run.accounts].
        apply Forall_app. split; [exact Hall|].
        constructor; [|constructor]. exact (init_account_ok _ _ _ _ _ _ E).
      * intros j a Hj. exists a. cbn [Run.accounts].
        split; [|split; reflexivity].
        rewrite nth_error_app1; [exact Hj|].
        apply nth_error_Some. congruence.
    + split; [intros; split; assumption|].
      intros j a Hj. exists a. split; [exact Hj|]. split; reflexivity.
  - apply (client_method_world i _ Run.RStr w (keeps_deposit now v)).
  - apply (client_method_world i _ Run.RStr w (keeps_withdraw now v)).
  - apply (client_method_world i _ Run.RStr w (keeps_pay_interest now)).
  - unfold bind, Run.classmethod, Account.set_interest_rate.
    destruct (Py.as_Real v) as [q|].
    + destruct (Py.Qlt_bool q 0) eqn:E; cbn [snd Run.accounts].
      * split; [intros; split; assumption|].
        intros j a Hj. exists a. split; [exact Hj|]. split; reflexivity.
      * split.
        -- intros _ Hall. split; [|exact Hall]. apply Qlt_bool_false. exact E.
        -- intros j a Hj. exists a. split; [exact Hj|]. split; reflexivity.
    + cbn [snd]. split; [intros; split; assumption|].
      intros j a Hj. exists a. split; [exact Hj|]. split; reflexivity.
  - apply (client_method_world i _ Run.RInt w keeps_make_transaction_codes).
  - apply (client_method_world i _ Run.RStr w (keeps_generation now k)).
  - apply (client_method_world i _ (fun _ => Run.RNone) w (keeps_set_first_name v)).
  - apply (client_method_world i _ (fun _ => Run.RNone) w (keeps_set_last_name v)).
  - apply (client_method_world i _ (fun _ => Run.RNone) w (keeps_assign_timezone v)).
Qed.

Lemma client_run_cons now c cs w :
  Client.run ((now, c) :: cs) w
  = (fst (Client.exec now c w) :: fst (Client.run cs (snd (Client.exec now c w))),
     snd (Client.run cs (snd (Client.exec now c w)))).
Proof.
  simpl. destruct (Client.exec now c w) as [r w']. cbn [fst snd].
  destruct (Client.run cs w') as [rs w'']. reflexivity.
Qed.



(** X6. An account keeps its place and its number: in every client
    program an account that exists still exists afterwards, under the
    same name of the program and with the same account number; and one
    call leaves every account that it is not made on exactly as it
    was (name, balance and time zone included). *)
Theorem X6_account_identity :
  (forall cs w j a,
     nth_error (Run.accounts w) j = Some a ->
     exists a',
       nth_error (Run.accounts (snd (Client.run cs w))) j = Some a'
       /\ Account.account_number a' = Account.account_number a)
  /\ (forall now c w j a,
        nth_error (Run.accounts w) j = Some a ->
        target c <> Some j ->
        nth_error (Run.accounts (snd (Client.exec now c w))) j = Some a).
Proof.
  split.
  - induction cs as [|[now c] cs IH]; intros w j a Hj.
    + exists a. split; [exact Hj|reflexivity].
    + rewrite client_run_cons. cbn [snd].
      destruct (proj2 (client_exec_world now c w) j a Hj) as [a1 [H1 [H2 _]]].
      destruct (IH _ j a1 H1) as [a' [H3 H4]].
      exists a'. split; [exact H3|congruence].
  - intros now c w j a Hj Ht.
    destruct (proj2 (client_exec_world now c w) j a Hj) as [a1 [H1 [_ H3]]].
    rewrite (H3 Ht) in H1. exact H1.
Qed.

Lemma X6_account_identity_witness :
  (exists a',
     nth_error
       (Run.accounts
          (snd (Client.run
                  [(test_now, Client.Base (Run.Withdraw 0 (Py.VInt 20)));
                   (test_now, Client.SetFirstName 0 (Some "Ali"))]
                  (Run.mkworld Account.klass_init [test_account])))) 0
     = Some a'
     /\ Account.account_number a' = 400)
  /\ nth_error
       (Run.accounts
          (snd (Client.exec test_now (Client.Base (Run.Withdraw 1 (Py.VInt 20)))
                  (Run.mkworld Account.klass_init [test_account; test_account]))))
       0
     = Some test_account.
Proof.
  destruct X6_account_identity as [H1 H2]. split.
  - apply (H1 _ (Run.mkworld Account.klass_init [test_account]) 0%nat test_account).
    reflexivity.
  - apply (H2 test_now _ (Run.mkworld Account.klass_init [test_account; test_account])
              0%nat test_account); [reflexivity|discriminate].
Defined.

(* ================================================================= *)
(** ** The class-wide interest rate *)



(* ================================================================= *)
(** ** How deposits, withdrawals and interest compose *)








(* ================================================================= *)
(** ** Confirmation codes never repeat *)

Lemma exec_returns_code now c w s :
  fst (Run.exec now c w) = Ok (Run.RStr s) ->
  (exists t acct, s = code_text t acct now (world_counter w))
  /\ world_counter (snd (Run.exec now c w)) = world_counter w + 1.
Proof.
  destruct c as [n fn ln b tz|i v|i v|i|v|i|i k]; unfold Run.exec.
  - destruct (Account.__init__ n fn ln b tz); discriminate.
  - rewrite bind_ret_method.
    destruct (method_cases i (Account.deposit now v) w) as [[_ ->]|[a [_ ->]]];
      [discriminate|unfold method_on].
    destruct (deposit_cases now v (Account.mkstate (Run.cls w) a))
      as [->|[q [_ [_ ->]]]]; cbn [fst snd]; [discriminate|].
    intros E. injection E as <-. split; [eexists; eexists|]; reflexivity.
  - rewrite bind_ret_method.
    destruct (method_cases i (Account.withdraw now v) w) as [[_ ->]|[a [_ ->]]];
      [discriminate|unfold method_on].
    destruct (withdraw_cases now v (Account.mkstate (Run.cls w) a))
      as [->|[q [_ [_ [[_ ->]|[_ ->]]]]]]; cbn [fst snd]; [discriminate| |];
      intros E; injection E as <-; (split; [eexists; eexists|]; reflexivity).
  - rewrite bind_ret_method.
    destruct (method_cases i (Account.pay_interest now) w) as [[_ ->]|[a [_ ->]]];
      [discriminate|unfold method_on].
    rewrite pay_interest_eq. cbn [fst snd].
    intros E. injection E as <-. split; [eexists; eexists|]; reflexivity.
  - unfold bind, Run.classmethod, Account.set_interest_rate.
    destruct (Py.as_Real v) as [q|]; [|discriminate].
    destruct (Py.Qlt_bool q 0); discriminate.
  - rewrite bind_ret_method.
    destruct (method_cases i Account.make_transaction_codes w)
      as [[_ ->]|[a [_ ->]]]; [discriminate|unfold method_on].
    cbn [fst]. discriminate.
  - rewrite bind_ret_method.
    destruct (method_cases i (Account.generation_confirmation_code now k) w)
      as [[_ ->]|[a [_ ->]]]; [discriminate|unfold method_on].
    destruct (generation_cases now k (Account.mkstate (Run.cls w) a))
      as [->|[kd ->]]; cbn [fst snd]; [discriminate|].
    intros E. injection E as <-. split; [eexists; eexists|]; reflexivity.
Qed.

Lemma exec_counter_le now c w :
  0 <= world_counter w -> world_counter w <= world_counter (snd (Run.exec now c w)).
Proof.
  intros Hc. destruct (exec_counter now c w Hc) as [[_ H]|[_ H]]; lia.
Qed.

Lemma run_codes cs : forall w,
  0 <= world_counter w ->
  NoDup (codes (fst (Run.run cs w)))
  /\ (forall s, In s (codes (fst (Run.run cs w))) ->
        exists id,
          Run.issued_id (Ok (Run.RStr s)) = Some id /\ world_counter w <= id).
Proof.
  induction cs as [|[now c] cs IH]; intros w Hc.
  - split; [constructor|contradiction].
  - rewrite run_cons. cbn [fst].
    pose proof (exec_counter_le now c w Hc) as Hle.
    destruct (IH (snd (Run.exec now c w)) ltac:(lia)) as [Hnd Hids].
    destruct (fst (Run.exec now c w)) as [[|s|z|k]|e] eqn:E; cbn [codes];
      try (split; [exact Hnd|];
           intros s' Hs'; destruct (Hids s' Hs') as [id [H1 H2]];
           exists id; split; [exact H1|lia]).
    destruct (exec_returns_code now c w s E) as [[t [acct ->]] Hw].
    split.
    + constructor; [|exact Hnd]. intros Hin.
      destruct (Hids _ Hin) as [id [H1 H2]].
      rewrite (issued_id_code _ _ _ _ Hc) in H1. injection H1 as <-. lia.
    + intros s' [<-|Hs'].
      * exists (world_counter w). split; [apply issued_id_code; exact Hc|lia].
      * destruct (Hids s' Hs') as [id [H1 H2]].
        exists id. split; [exact H1|lia].
Qed.

(** X10. No confirmation code is ever handed out twice: in every run
    the codes returned (by deposits, withdrawals accepted or rejected,
    interest payments, and direct calls of
    [generation_confirmation_code]) are pairwise different, also for
    the same account, the same kind and the same second, and each ends
    in the id that was drawn for it. *)
Theorem X10_codes_unique cs :
  NoDup (codes (fst (Run.run cs Run.world_init)))
  /\ (forall s, In s (codes (fst (Run.run cs Run.world_init))) ->
        exists id,
          Py.int (last (Py.split "-" s) EmptyString) = Some id /\ 100 <= id).
Proof.
  apply (run_codes cs Run.world_init). vm_compute. discriminate.
Qed.

Lemma X10_codes_unique_witness :
  exists id,
    Py.int (last (Py.split "-" "W-400-20261105090807-100") EmptyString) = Some id
    /\ 100 <= id.
Proof.
  apply (proj2 (X10_codes_unique
                  [(test_now, Run.New (Py.VInt 400) (Some "Mohammad")
                                (Some "Jalalnia") (Py.VReal (100 # 1)) TzNone);
                   (test_now, Run.Withdraw 0 (Py.VInt 20))])
           "W-400-20261105090807-100").
  vm_compute. left. reflexivity.
Defined.

(* ================================================================= *)
(** ** [class TransactionID] *)

(** X11. [n] calls of [next] on a [TransactionID] that was started at
    [s] return [s + 1], [s + 2], ..., [s + n], strictly increasing and
    without repetition, and leave it at [s + n]. *)
Theorem X11_transaction_id_next n : forall t,
  next_n n t
  = (Ok (Zrange_from (TransactionID._start_id t + 1) n),
     TransactionID.mk (TransactionID._start_id t + Z.of_nat n))
  /\ StronglySorted Z.lt (Zrange_from (TransactionID._start_id t + 1) n)
  /\ NoDup (Zrange_from (TransactionID._start_id t + 1) n).
Proof.
  induction n as [|n IH]; intros [s]; cbn [TransactionID._start_id].
  - split; [|split; constructor]. cbn. rewrite Z.add_0_r. reflexivity.
  - split; [|split; [apply Zrange_from_sorted
                    |apply sorted_NoDup, Zrange_from_sorted]].
    cbn [next_n]. unfold bind at 1, TransactionID.__next__.
    cbn [TransactionID._start_id]. unfold bind at 1.
    destruct (IH (TransactionID.mk (s + 1))) as [-> _].
    cbn [TransactionID._start_id Zrange_from]. unfold ret.
    f_equal. f_equal. lia.
Qed.

(* ================================================================= *)
(** ** Dates and ordinals *)










(* ================================================================= *)
(** ** Parsing: the display time zone and the times returned *)


(** X12. What the display time zone can make of a parse.  An argument
    that is neither absent nor a [TimeZone] makes every parse raise
    ValueError, whatever the code.  With a [TimeZone] whose offset
    moves a well-formed timestamp before year 1 or past year 9999, the
    parse raises OverflowError: the addition is made outside the
    [try], so this is not turned into a ValueError. *)
Theorem X12_parse_display_zone code :
  (forall v, Account.parse_confirmation_code code (TzOther v) = Raise ValueError)
  /\ (forall tc acct tid dt tz,
        Py.split "-" code = [tc; acct; Datetime.strftime dt; tid] ->
        Datetime.valid dt = true ->
        let days :=
          (Datetime.toordinal dt * 86400
           + (Datetime.hour dt * 3600 + Datetime.minute dt * 60 + Datetime.second dt)
           + TimeZone.offset tz) / 86400 in
        days <= 0 \/ Datetime._MAXORDINAL < days ->
        Account.parse_confirmation_code code (TzObj tz) = Raise OverflowError).
Proof.
  split.
  - intros v. unfold Account.parse_confirmation_code.
    destruct (Py.split "-" code) as [|a [|b [|c [|d [|e l]]]]]; try reflexivity.
    destruct (Datetime.strptime c) as [dt|e] eqn:E; [reflexivity|].
    rewrite (strptime_raises _ _ E). reflexivity.
  - intros tc acct tid dt tz Hs V days Hd.
    unfold Account.parse_confirmation_code.
    rewrite Hs, (strptime_strftime dt V). unfold Datetime.add. fold days.
    replace ((0 <? days) && (days <=? Datetime._MAXORDINAL)) with false by lia.
    reflexivity.
Qed.

Lemma X12_parse_display_zone_witness :
  Account.parse_confirmation_code "W-400-99991231235959-100"
    (TzObj (TimeZone.mk "LINT" 14 0 50400))
  = Raise OverflowError.
Proof.
  apply (proj2 (X12_parse_display_zone "W-400-99991231235959-100")
           "W" "400" "100" (Datetime.mkdatetime 9999 12 31 23 59 59)
           (TimeZone.mk "LINT" 14 0 50400));
    [reflexivity|reflexivity|right; vm_compute; reflexivity].
Defined.







(* ================================================================= *)
(** ** Assigning to the properties of an account *)

(** X15. Assigning a missing or blank value to [first_name] or
    [last_name] raises ValueError and changes nothing; any other string
    is stored as it is (not stripped) and [full_name] follows, while
    number, balance, time zone, the other name and the class stay.
    Assigning to [timezone] anything but a [TimeZone] raises ValueError
    and changes nothing, [None] included, although the constructor
    takes [None] for UTC. *)
Theorem X15_property_setters v st :
  (v = None \/ (exists s, v = Some s /\ Py.strip s = EmptyString) ->
   Account.set_first_name v st = (Raise ValueError, st)
   /\ Account.set_last_name v st = (Raise ValueError, st))
  /\ (forall s, v = Some s -> nonblank s ->
        let a := Account.self st in
        Account.set_first_name v st
        = (Ok tt,
           Account.mkstate (Account.cls st)
             (Account.mk (Account.account_number a) s (Account.last_name a)
                (Account.balance a) (Account.timezone a)))
        /\ Account.full_name (Account.self (snd (Account.set_first_name v st)))
           = s ++ " " ++ Account.last_name a
        /\ Account.set_last_name v st
           = (Ok tt,
              Account.mkstate (Account.cls st)
                (Account.mk (Account.account_number a) (Account.first_name a) s
                   (Account.balance a) (Account.timezone a)))
        /\ Account.full_name (Account.self (snd (Account.set_last_name v st)))
           = Account.first_name a ++ " " ++ s)
  /\ (forall t,
        match t with
        | TzObj tz =>
            Account.timezone (Account.self (snd (Account.assign_timezone t st))) = tz
            /\ fst (Account.assign_timezone t st) = Ok tt
        | _ => Account.assign_timezone t st = (Raise ValueError, st)
        end)
  /\ (forall n fn ln b a,
        Account.__init__ n fn ln b TzNone = Ok a ->
        Account.timezone a = TimeZone.mk "UTC" 0 0 0).
Proof.
  repeat apply conj.
  - intros H.
    assert (E : forall title, Account.validate_and_set_name v title = Raise ValueError).
    { intros title. pose proof (validate_name_spec v title) as Hs.
      destruct H as [->|[s [-> Hb]]]; [exact Hs|].
      destruct Hs as [[_ Hs]|[Hn _]]; [exact Hs|contradiction]. }
    unfold Account.set_first_name, Account.set_last_name. rewrite !E.
    split; reflexivity.
  - intros s -> Hs a. subst a.
    unfold Account.set_first_name, Account.set_last_name.
    rewrite !(validate_name_ok s _ Hs). repeat split.
  - intros [|tz|x]; try reflexivity. split; reflexivity.
  - intros n fn ln b a H.
    destruct (account_init_cases n fn ln b TzNone)
      as [E|[z [f [l [q [_ [_ [_ [_ [_ [_ [_ [_ [_ E]]]]]]]]]]]]]]; [congruence|].
    rewrite E in H. injection H as <-. reflexivity.
Qed.

Lemma X15_property_setters_witness :
  Account.set_first_name (Some "  ") test_state = (Raise ValueError, test_state)
  /\ Account.full_name
       (Account.self (snd (Account.set_first_name (Some " Ali") test_state)))
     = " Ali Jalalnia"
  /\ Account.timezone
       (Account.mk 400 "Mohammad" "Jalalnia" (100 # 1) (TimeZone.mk "UTC" 0 0 0))
     = TimeZone.mk "UTC" 0 0 0.
Proof.
  destruct (X15_property_setters (Some "  ") test_state) as [H1 _].
  destruct (X15_property_setters (Some " Ali") test_state) as [_ [H2 [_ H4]]].
  repeat apply conj.
  - apply H1. right. exists "  ". split; reflexivity.
  - apply (H2 " Ali" eq_refl). discriminate.
  - apply (H4 (Py.VInt 400) (Some "Mohammad") (Some "Jalalnia") (Py.VReal (100 # 1))).
    reflexivity.
Defined.

(* ================================================================= *)
(** ** A call that raises changes nothing *)












